(** * pangLB health server: a shallow embedding of [main.go]

    The program is a small HTTP probe server.  Its Go functions are
    embedded below as Rocq functions over an explicit description of the
    outside world (environment variables, file system, clock, the outcome of
    the [systemctl] subprocess), and the HTTP response writer is a small
    state machine that follows Go's [net/http] buffering of the header.

    Layout: the parts of the Go standard library the program relies on
    ([time], [strings], [os], [net/http]) come first, each in its own
    module; then the functions of [main.go] under their own names; then the
    theorems. *)

From Stdlib Require Import ZArith String Ascii List Bool Lia.
From stdpp Require Import base strings gmap.

Local Open Scope string_scope.
Local Open Scope Z_scope.

(* ===================================================================== *)
(** ** Go's [strings] package (byte strings) *)
(* ===================================================================== *)

Module GoStrings.

(** [strings.HasPrefix(s, prefix)]. *)
Fixpoint HasPrefix (s prefix : string) {struct prefix} : bool :=
  match prefix, s with
  | EmptyString, _ => true
  | String p prefix', String c s' => Ascii.eqb c p && HasPrefix s' prefix'
  | String _ _, EmptyString => false
  end.

(** [strings.Contains(s, substr)]. *)
Fixpoint Contains (s substr : string) : bool :=
  HasPrefix s substr ||
  match s with
  | EmptyString => false
  | String _ s' => Contains s' substr
  end.

(** [strings.HasSuffix(s, "/")], the only suffix test the mux makes. *)
Fixpoint EndsInSlash (s : string) : bool :=
  match s with
  | EmptyString => false
  | String c EmptyString => Ascii.eqb c "/"
  | String _ s' => EndsInSlash s'
  end.

(** [strings.ToLower] and [strings.TrimSpace] as they act on ASCII text.
    Go's functions also map and trim Unicode code points; the program is
    embedded over arbitrary such functions (section [Program]) and these
    two serve closed examples whose text is ASCII. *)
Definition lowerByte (c : ascii) : ascii :=
  let n := nat_of_ascii c in
  if (65 <=? n)%nat && (n <=? 90)%nat then ascii_of_nat (n + 32) else c.

Fixpoint ToLower_ascii (s : string) : string :=
  match s with
  | EmptyString => EmptyString
  | String c s' => String (lowerByte c) (ToLower_ascii s')
  end.

Definition isSpace (c : ascii) : bool :=
  let n := nat_of_ascii c in
  ((9 <=? n)%nat && (n <=? 13)%nat) || (n =? 32)%nat.

Fixpoint trimLeft (s : string) : string :=
  match s with
  | String c s' => if isSpace c then trimLeft s' else s
  | EmptyString => EmptyString
  end.

Fixpoint trimRight (s : string) : string :=
  match s with
  | EmptyString => EmptyString
  | String c s' =>
      match trimRight s' with
      | EmptyString => if isSpace c then EmptyString else String c EmptyString
      | t => String c t
      end
  end.

Definition TrimSpace_ascii (s : string) : string := trimRight (trimLeft s).

End GoStrings.

(* ===================================================================== *)
(** ** Go's [time] package: [Duration], [Round], [String], [Sub] *)
(* ===================================================================== *)

Module GoTime.

(** A [Duration] is an int64 count of nanoseconds. *)
Abbreviation Duration := Z (only parsing).

Definition Nanosecond  : Duration := 1.
Definition Microsecond : Duration := 1000 * Nanosecond.
Definition Millisecond : Duration := 1000 * Microsecond.
Definition Second      : Duration := 1000 * Millisecond.
Definition Minute      : Duration := 60 * Second.
Definition Hour        : Duration := 60 * Minute.

Definition minDuration : Duration := - 2 ^ 63.
Definition maxDuration : Duration := 2 ^ 63 - 1.

Definition in_int64 (d : Z) : Prop := minDuration <= d <= maxDuration.

(** Two's complement wrap-around of int64 arithmetic, and [uint64(x)]. *)
Definition wrap64 (z : Z) : Z := (z + 2 ^ 63) mod 2 ^ 64 - 2 ^ 63.
Definition uint64 (z : Z) : Z := z mod 2 ^ 64.

(** [lessThanHalf(x, y)]: [uint64(x)+uint64(x) < uint64(y)]. *)
Definition lessThanHalf (x y : Duration) : bool :=
  uint64 (uint64 x + uint64 x) <? uint64 y.

(** [Duration.Round(m)]: nearest multiple of [m], halves away from zero;
    the extreme Duration when the result is not representable.  Go's [%]
    truncates towards zero, which is [Z.rem]. *)
Definition Round (d m : Duration) : Duration :=
  if m <=? 0 then d
  else
    let r := Z.rem d m in
    if d <? 0 then
      let r := wrap64 (- r) in
      if lessThanHalf r m then wrap64 (d + r)
      else
        let d1 := wrap64 (d - m + r) in
        if d1 <? d then d1 else minDuration
    else
      if lessThanHalf r m then wrap64 (d - r)
      else
        let d1 := wrap64 (d + m - r) in
        if d <? d1 then d1 else maxDuration.

(** *** [Duration.String]

    Go fills a 32-byte buffer from its end; here the bytes written so far
    are the string [tail], and every write prepends to it. *)

Definition digit (v : Z) : ascii := ascii_of_nat (Z.to_nat (v mod 10) + 48).

(** The loop of [fmtFrac]: [prec] digits, trailing zeros omitted. *)
Fixpoint fmtFrac_loop (prec : nat) (v : Z) (print : bool) (tail : string)
  : string * Z * bool :=
  match prec with
  | O => (tail, v, print)
  | S prec' =>
      let dg := v mod 10 in
      let print := print || negb (dg =? 0) in
      let tail := if print then String (digit dg) tail else tail in
      fmtFrac_loop prec' (v / 10) print tail
  end.

Definition fmtFrac (tail : string) (v : Z) (prec : nat) : string * Z :=
  let '(tail, v, print) := fmtFrac_loop prec v false tail in
  (if print then String "." tail else tail, v).

(** The loop of [fmtInt], [for v > 0].  A uint64 has at most 20 decimal
    digits, so 20 rounds always reach [v = 0] (lemma [fmtInt_loop_uint64]). *)
Fixpoint fmtInt_loop (fuel : nat) (v : Z) (tail : string) : string :=
  match fuel with
  | O => tail
  | S fuel' =>
      if 0 <? v then fmtInt_loop fuel' (v / 10) (String (digit v) tail)
      else tail
  end.

Definition fmtInt (tail : string) (v : Z) : string :=
  if v =? 0 then String "0" tail else fmtInt_loop 20 v tail.

(** The two bytes of U+00B5 (micro sign) in UTF-8. *)
Definition micro : string :=
  String (ascii_of_nat 194) (String (ascii_of_nat 181) EmptyString).

Definition String_ (d : Duration) : string :=
  let neg := d <? 0 in
  let u := if neg then uint64 (- uint64 d) else uint64 d in
  let body :=
    if u <? Second then
      if u =? 0 then "0s"
      else
        let '(prec, unit) :=
          if u <? Microsecond then (0%nat, "ns")
          else if u <? Millisecond then (3%nat, micro ++ "s")
          else (6%nat, "ms") in
        let '(tail, u) := fmtFrac unit u prec in
        fmtInt tail u
    else
      let '(tail, u) := fmtFrac "s" u 9 in
      let tail := fmtInt tail (u mod 60) in
      let u := u / 60 in
      if 0 <? u then
        let tail := fmtInt (String "m" tail) (u mod 60) in
        let u := u / 60 in
        if 0 <? u then fmtInt (String "h" tail) u else tail
      else tail in
  if neg then String "-" body else body.

(** *** [ParseDuration], the fragment without a decimal point

    [time.ParseDuration] evaluates the digits after a decimal point in
    float64, which this embedding does not cover; the program is therefore
    embedded over an arbitrary parser (section [Program] below).  For
    closed examples the function is translated here for inputs WITHOUT a
    decimal point, where it is integer arithmetic on uint64: an optional
    sign, then either ["0"] or a sequence of decimal numbers each followed
    by a unit.  An input with a decimal point is outside the fragment and
    is rejected, so [ParseDuration_whole] is only used at inputs free of
    ['.'].  [None] stands for a non-nil error. *)

Definition isDigit (c : ascii) : bool :=
  let n := nat_of_ascii c in (48 <=? n)%nat && (n <=? 57)%nat.

(** [leadingInt]: the leading [[0-9]*] of [s] as a uint64, with the rest. *)
Fixpoint leadingInt (s : string) (x : Z) : option (Z * string) :=
  match s with
  | String c s' =>
      if isDigit c then
        if x >? 2 ^ 63 / 10 then None
        else
          let x := x * 10 + Z.of_nat (nat_of_ascii c) - 48 in
          if x >? 2 ^ 63 then None else leadingInt s' x
      else Some (x, s)
  | EmptyString => Some (x, s)
  end.

(** The unit: the bytes up to the next ['.'] or digit. *)
Fixpoint spanUnit (s : string) : string * string :=
  match s with
  | String c s' =>
      if Ascii.eqb c "." || isDigit c then (EmptyString, s)
      else let '(u, rest) := spanUnit s' in (String c u, rest)
  | EmptyString => (EmptyString, EmptyString)
  end.

(** The two bytes of U+03BC (Greek mu) in UTF-8. *)
Definition mu : string :=
  String (ascii_of_nat 206) (String (ascii_of_nat 188) EmptyString).

Definition unitMap (u : string) : option Z :=
  if String.eqb u "ns" then Some Nanosecond
  else if String.eqb u "us" then Some Microsecond
  else if String.eqb u (micro ++ "s") then Some Microsecond
  else if String.eqb u (mu ++ "s") then Some Microsecond
  else if String.eqb u "ms" then Some Millisecond
  else if String.eqb u "s" then Some Second
  else if String.eqb u "m" then Some Minute
  else if String.eqb u "h" then Some Hour
  else None.

(** The loop [for s != ""]; every round consumes at least the unit, so
    the length of the input bounds the number of rounds. *)
Fixpoint parseLoop (fuel : nat) (s : string) (d : Z) : option Z :=
  match s, fuel with
  | EmptyString, _ => Some d
  | String _ _, O => None
  | String c _, S fuel' =>
      if negb (Ascii.eqb c "." || isDigit c) then None
      else if Ascii.eqb c "." then None           (* outside the fragment *)
      else
        match leadingInt s 0 with
        | None => None
        | Some (v, s1) =>
            match s1 with
            | String "." _ => None                 (* outside the fragment *)
            | _ =>
                let '(u, s2) := spanUnit s1 in
                if String.eqb u "" then None       (* missing unit *)
                else
                  match unitMap u with
                  | None => None                   (* unknown unit *)
                  | Some unit =>
                      if v >? 2 ^ 63 / unit then None
                      else
                        let d := uint64 (d + v * unit) in
                        if d >? 2 ^ 63 then None else parseLoop fuel' s2 d
                  end
            end
        end
  end.

Definition ParseDuration_whole (s : string) : option Duration :=
  let '(neg, s) :=
    match s with
    | String c s' =>
        if Ascii.eqb c "-" || Ascii.eqb c "+" then (Ascii.eqb c "-", s')
        else (false, s)
    | EmptyString => (false, s)
    end in
  if String.eqb s "0" then Some 0
  else if String.eqb s "" then None
  else
    match parseLoop (String.length s) s 0 with
    | None => None
    | Some d =>
        if neg then Some (- d)
        else if d >? 2 ^ 63 - 1 then None else Some d
    end.

(** An instant, as nanoseconds since the Unix epoch.  File times and
    [time.Now()] as read by [time.Since] carry wall-clock readings only. *)
Abbreviation Time := Z (only parsing).

(** [t.Sub(u)]: the difference, saturated to the Duration range. *)
Definition Sub (t u : Time) : Duration :=
  let d := t - u in
  if d <? minDuration then minDuration
  else if maxDuration <? d then maxDuration
  else d.

End GoTime.

(* ===================================================================== *)
(** ** Go's [os] package: the file system and the environment *)
(* ===================================================================== *)

Module GoOs.

(** What a handler may learn from [os.FileInfo]. *)
Record FileInfo := { IsDir : bool; ModTime : GoTime.Time }.

(** An error of [os.Stat]: whether [os.IsNotExist] holds of it, and its
    [Error()] text. *)
Record PathError := { IsNotExist : bool; Error : string }.

Inductive StatResult :=
| StatOk (fi : FileInfo)
| StatErr (err : PathError).

(** The process environment: the variables that are set, first binding
    wins.  [Getenv] returns the empty string for an unset variable. *)
Definition Environ := list (string * string).

Fixpoint Getenv (env : Environ) (k : string) : string :=
  match env with
  | [] => ""
  | (k', v) :: env' => if String.eqb k' k then v else Getenv env' k
  end.

End GoOs.

(* ===================================================================== *)
(** ** Go's [net/http]: the response writer and the request multiplexer *)
(* ===================================================================== *)

Module GoHttp.

Definition StatusOK : Z := 200.
Definition StatusBadRequest : Z := 400.
Definition StatusNotFound : Z := 404.
Definition StatusServiceUnavailable : Z := 503.

(** Header fields under their canonical names.  The handlers here only
    [Set] single values. *)
Abbreviation Header := (gmap string string).

(** The server's [response].  [handlerHeader] is the map handed out by
    [Header()]; [cw_header] is the snapshot of it that will be sent, taken
    when the status is fixed.  The body stays in the connection's buffer
    until the handler returns, which is when the header block goes out. *)
Record response := {
  handlerHeader : Header;
  calledHeader  : bool;
  wroteHeader   : bool;
  status        : Z;
  cw_header     : option Header;
  written       : string
}.

Definition newResponse : response :=
  {| handlerHeader := ∅; calledHeader := false; wroteHeader := false;
     status := 0; cw_header := None; written := "" |}.

(** [w.WriteHeader(code)] for a final status (not 1xx).  A second call is
    logged as superfluous and changes nothing. *)
Definition WriteHeader (code : Z) (w : response) : response :=
  if wroteHeader w then w
  else
    {| handlerHeader := handlerHeader w;
       calledHeader := calledHeader w;
       wroteHeader := true;
       status := code;
       cw_header :=
         match cw_header w with
         | None => if calledHeader w then Some (handlerHeader w) else None
         | Some h => Some h
         end;
       written := written w |}.

(** [w.Header()]: once the status is fixed, the first access snapshots the
    map as it stood, and later changes reach only the handler's copy. *)
Definition Header_ (w : response) : response :=
  {| handlerHeader := handlerHeader w;
     calledHeader := true;
     wroteHeader := wroteHeader w;
     status := status w;
     cw_header :=
       match cw_header w with
       | None => if wroteHeader w then Some (handlerHeader w) else None
       | Some h => Some h
       end;
     written := written w |}.

(** [w.Header().Set(k, v)]. *)
Definition Header_Set (k v : string) (w : response) : response :=
  let w := Header_ w in
  {| handlerHeader := <[k := v]> (handlerHeader w);
     calledHeader := calledHeader w;
     wroteHeader := wroteHeader w;
     status := status w;
     cw_header := cw_header w;
     written := written w |}.

(** [w.Write(data)]: fixes the status at 200 if the handler has not. *)
Definition Write (data : string) (w : response) : response :=
  let w := if wroteHeader w then w else WriteHeader StatusOK w in
  {| handlerHeader := handlerHeader w;
     calledHeader := calledHeader w;
     wroteHeader := wroteHeader w;
     status := status w;
     cw_header := cw_header w;
     written := written w ++ data |}.

(** What the client receives. *)
Record Response := {
  StatusCode : Z;
  RespHeader : Header;
  Body       : string
}.

Definition bodyAllowedForStatus (code : Z) : bool :=
  if (100 <=? code) && (code <=? 199) then false
  else if code =? 204 then false
  else if code =? 304 then false
  else true.

Definition nonblank (o : option string) : bool :=
  match o with
  | Some v => negb (String.eqb v "")
  | None => false
  end.

Section Finish.
(** [http.DetectContentType], the server's content sniffing. *)
Variable DetectContentType : string -> string.

(** The header block that is sent: the snapshot if one was taken, else
    the handler's map; a missing Content-Type is filled in by sniffing
    the body. *)
Definition sentHeader (w : response) : Header :=
  let header :=
    match cw_header w with
    | Some h => h
    | None => handlerHeader w
    end in
  let haveType := bool_decide (is_Some (header !! "Content-Type")) in
  let hasCE := nonblank (header !! "Content-Encoding") in
  let hasTE := bool_decide (is_Some (header !! "Transfer-Encoding")) in
  if bodyAllowedForStatus (status w) && negb hasCE && negb haveType
     && negb hasTE && negb (String.eqb (written w) "")
  then <["Content-Type" := DetectContentType (written w)]> header
  else header.

(** The end of the request: the status defaults to 200. *)
Definition finishRequest (w : response) : Response :=
  let w := if wroteHeader w then w else WriteHeader StatusOK w in
  {| StatusCode := status w;
     RespHeader := sentHeader w;
     Body := written w |}.
End Finish.

(** [http.Error(w, msg, code)], and [http.NotFound]. *)
Definition Error (msg : string) (code : Z) (w : response) : response :=
  let w := Header_Set "Content-Type" "text/plain; charset=utf-8" w in
  let w := Header_Set "X-Content-Type-Options" "nosniff" w in
  let w := WriteHeader code w in
  Write (msg ++ String (ascii_of_nat 10) "") w.

Definition NotFound (w : response) : response :=
  Error "404 page not found" StatusNotFound w.

(** *** ServeMux

    [m] holds every pattern; [es] the patterns ending in ['/'], longest
    first.  A pattern without the final slash matches one path; one with
    it matches every path it is a prefix of. *)
Section Mux.
Context {H : Type}.

Record ServeMux := {
  m  : gmap string H;
  es : list (string * H)
}.

Definition NewServeMux : ServeMux := {| m := ∅; es := [] |}.

(** [appendSorted]: before the first entry with a shorter pattern. *)
Fixpoint appendSorted (es : list (string * H)) (e : string * H)
  : list (string * H) :=
  match es with
  | [] => [e]
  | e' :: es' =>
      if (String.length (fst e') <? String.length (fst e))%nat
      then e :: e' :: es'
      else e' :: appendSorted es' e
  end.

Definition Handle (pattern : string) (h : H) (mux : ServeMux) : ServeMux :=
  {| m := <[pattern := h]> (m mux);
     es := if GoStrings.EndsInSlash pattern
           then appendSorted (es mux) (pattern, h)
           else es mux |}.

Fixpoint matchPrefix (es : list (string * H)) (path : string) : option H :=
  match es with
  | [] => None
  | (pattern, h) :: es' =>
      if GoStrings.HasPrefix path pattern then Some h
      else matchPrefix es' path
  end.

(** [mux.match(path)]: an exact match first, then the longest prefix. *)
Definition match_ (mux : ServeMux) (path : string) : option H :=
  match m mux !! path with
  | Some h => Some h
  | None => matchPrefix (es mux) path
  end.
End Mux.

End GoHttp.

(* ===================================================================== *)
(** ** The outside world of one poll *)
(* ===================================================================== *)

(** What [cmd.Run()] returned for [systemctl is-active --quiet unit]. *)
Inductive RunResult :=
| RunNil                          (* nil: exit status 0 *)
| RunExitError (code : Z)         (* *exec.ExitError: non-zero exit status *)
| RunNotFound                     (* no systemctl executable on the host *)
| RunKilled                       (* the process was killed at the deadline *)
| RunCtxErr.                      (* never started: the context was done *)

Record World := {
  (* os.Stat(path) *)
  stat : string -> GoOs.StatResult;
  (* the clock as read by time.Since inside the marker-file check *)
  now : GoTime.Time;
  (* the clock as read by the handler for the verdict's timestamp *)
  handlerNow : GoTime.Time;
  (* cmd.Run() for the given unit under the given timeout *)
  run : string -> GoTime.Duration -> RunResult;
  (* errors.Is(ctx.Err(), context.DeadlineExceeded), read after cmd.Run() *)
  deadlineExceeded : string -> GoTime.Duration -> bool
}.

(* ===================================================================== *)
(** ** [main.go] *)
(* ===================================================================== *)

Record CheckDetail := {
  CheckOK : bool;          (* json:"ok" *)
  Message : string         (* json:"message,omitempty" *)
}.

Record Result := {
  OK     : bool;
  Now    : GoTime.Time;
  Checks : gmap string CheckDetail
}.

Definition getenv (env : GoOs.Environ) (k d : string) : string :=
  let v := GoOs.Getenv env k in
  if negb (String.eqb v "") then v else d.

Definition checkHealthFile (w : World) (path : string) (maxAge : GoTime.Duration)
  : bool * string :=
  match stat w path with
  | GoOs.StatErr err =>
      if GoOs.IsNotExist err then (false, "health file missing")
      else (false, "stat error: " ++ GoOs.Error err)
  | GoOs.StatOk fi =>
      if GoOs.IsDir fi then (false, "health file path is a directory")
      else if maxAge >? 0 then
        let age := GoTime.Sub (now w) (GoOs.ModTime fi) in
        if age >? maxAge then
          (false, "health file too old: "
                    ++ GoTime.String_ (GoTime.Round age GoTime.Second)
                    ++ " > " ++ GoTime.String_ maxAge)
        else (true, "present")
      else (true, "present")
  end.

Definition checkSystemd (w : World) (unit : string) (timeout : GoTime.Duration)
  : bool * string :=
  match run w unit timeout with
  | RunNil => (true, "active")
  | _ =>
      if deadlineExceeded w unit timeout then (false, "systemctl timeout")
      else (false, "not active")
  end.

(** The configuration [main] resolves once, which its handlers close over. *)
Record Config := {
  listenAddr     : string;
  healthFile     : string;
  maxAge         : GoTime.Duration;
  certFile       : string;
  keyFile        : string;
  enableSystemd  : bool;
  systemdUnit    : string;
  systemdTimeout : GoTime.Duration
}.

Record Request := { Method : string; URL_Path : string }.

Definition Handler := Request -> GoHttp.response -> GoHttp.response.

Definition newline : string := String (ascii_of_nat 10) "".

Section Program.

(** Library functions the program calls and this development leaves
    open: [time.ParseDuration] ([None] for an error), [strings.ToLower],
    [strings.TrimSpace], the JSON document [json.Marshal] produces for a
    [Result], and [http.DetectContentType]. *)
Variable ParseDuration : string -> option GoTime.Duration.
Variables ToLower TrimSpace : string -> string.
Variable Marshal : Result -> string.
Variable DetectContentType : string -> string.

Definition parseDurationEnv (env : GoOs.Environ) (k : string)
           (d : GoTime.Duration) : GoTime.Duration :=
  let v := GoOs.Getenv env k in
  if String.eqb v "" then d
  else
    match ParseDuration v with
    | None => d
    | Some dd => dd
    end.

Definition parseBoolEnv (env : GoOs.Environ) (k : string) (d : bool) : bool :=
  let v := TrimSpace (ToLower (GoOs.Getenv env k)) in
  if String.eqb v "" then d
  else String.eqb v "1" || String.eqb v "true" || String.eqb v "yes"
       || String.eqb v "on".

(** The first lines of [main].  [env] is the environment as [main] finds
    it, that is after [init] has derived LISTEN_ADDR from PORT. *)
Definition loadConfig (env : GoOs.Environ) : Config :=
  {| listenAddr := getenv env "LISTEN_ADDR" ":8443";
     healthFile := getenv env "NEWT_HEALTH_FILE" "/tmp/newt-healthy";
     maxAge := parseDurationEnv env "MAX_AGE" (2 * GoTime.Minute);
     certFile := GoOs.Getenv env "TLS_CERT_FILE";
     keyFile := GoOs.Getenv env "TLS_KEY_FILE";
     enableSystemd := parseBoolEnv env "CHECK_SYSTEMD" false;
     systemdUnit := getenv env "SYSTEMD_UNIT" "newt";
     systemdTimeout := parseDurationEnv env "SYSTEMD_TIMEOUT" (1 * GoTime.Second) |}.

(** The verdict the /healthz handler builds: [res] at the point where
    [res.OK] has been assigned. *)
Definition healthzResult (cfg : Config) (w : World) : Result :=
  let checks : gmap string CheckDetail := ∅ in
  let '(okFile, msgFile) := checkHealthFile w (healthFile cfg) (maxAge cfg) in
  let checks :=
    <["newt_health_file" := {| CheckOK := okFile; Message := msgFile |}]> checks in
  let overall := okFile in
  let '(checks, overall) :=
    if enableSystemd cfg then
      let '(okSys, msgSys) :=
        checkSystemd w (systemdUnit cfg) (systemdTimeout cfg) in
      (<["systemd" := {| CheckOK := okSys; Message := msgSys |}]> checks,
       overall && okSys)
    else (checks, overall) in
  {| OK := overall; Now := handlerNow w; Checks := checks |}.

(** [json.NewEncoder(w).Encode(res)]: the document and a newline. *)
Definition Encode (res : Result) (rw : GoHttp.response) : GoHttp.response :=
  GoHttp.Write (Marshal res ++ newline) rw.

Definition healthzHandler (cfg : Config) (w : World) : Handler :=
  fun _ rw =>
    let res := healthzResult cfg w in
    let rw :=
      if OK res then GoHttp.WriteHeader GoHttp.StatusOK rw
      else GoHttp.WriteHeader GoHttp.StatusServiceUnavailable rw in
    let rw := GoHttp.Header_Set "Content-Type" "application/json" rw in
    Encode res rw.

Definition rootHandler : Handler :=
  fun _ rw =>
    let rw := GoHttp.WriteHeader GoHttp.StatusOK rw in
    GoHttp.Write ("ok" ++ newline) rw.

Definition NotFoundHandler : Handler := fun _ rw => GoHttp.NotFound rw.

(** The mux of [main], with both registrations in source order. *)
Definition mux (cfg : Config) (w : World) : GoHttp.ServeMux :=
  GoHttp.Handle "/" rootHandler
    (GoHttp.Handle "/healthz" (healthzHandler cfg w) GoHttp.NewServeMux).

(** [mux.handler(host, path)]: the registered handler that matches the
    path, else the not-found handler.  [path] is the request path in the
    canonical form in which the mux looks it up. *)
Definition muxHandler (cfg : Config) (w : World) (path : string) : Handler :=
  match GoHttp.match_ (mux cfg w) path with
  | Some h => h
  | None => NotFoundHandler
  end.

(** One request served to completion by its handler.  [URL_Path r] is
    looked up as it is: this is the server's answer for a request whose
    path is already in the mux's canonical form ([GoPath.cleanPath] leaves
    it unchanged; for any other path the mux answers with a redirect
    instead) and whose method has the body sent (GET, not HEAD). *)
Definition serve (cfg : Config) (w : World) (r : Request) : GoHttp.Response :=
  GoHttp.finishRequest DetectContentType
    (muxHandler cfg w (URL_Path r) r GoHttp.newResponse).

End Program.

Arguments serve Marshal DetectContentType cfg w r : simpl never.

(* ===================================================================== *)
(** ** Start-up: [init], and the listener and protocol choice of [main] *)
(* ===================================================================== *)

Module GoStrconv.

(** The loop of [strconv.Atoi]: every byte must be a decimal digit. *)
Fixpoint digits (s : string) (n : Z) : option Z :=
  match s with
  | EmptyString => Some n
  | String ch s' =>
      if GoTime.isDigit ch
      then digits s' (n * 10 + (Z.of_nat (nat_of_ascii ch) - 48))
      else None
  end.

(** [strconv.Atoi] on a 64-bit platform, [None] for a non-nil error: an
    optional sign and at least one decimal digit, the value within int64.
    Strings shorter than 19 bytes take Go's fast path, which is the first
    branch; longer ones go through [ParseInt(s, 10, 0)], whose range checks
    are the second.  [init] below is embedded over an arbitrary such
    function; this one serves closed examples. *)
Definition Atoi (s : string) : option Z :=
  match s with
  | EmptyString => None
  | String c s1 =>
      let neg := Ascii.eqb c "-" in
      let body := if Ascii.eqb c "-" || Ascii.eqb c "+" then s1 else s in
      if String.eqb body "" then None
      else
        match digits body 0 with
        | None => None
        | Some n =>
            if (String.length s <? 19)%nat then Some (if neg then - n else n)
            else if neg then (if n >? 2 ^ 63 then None else Some (- n))
            else (if n >=? 2 ^ 63 then None else Some n)
        end
  end.

End GoStrconv.

Module GoEnv.

(** [strings.IndexByte(s, c) >= 0]. *)
Fixpoint hasByte (s : string) (c : ascii) : bool :=
  match s with
  | EmptyString => false
  | String x s' => Ascii.eqb x c || hasByte s' c
  end.

Definition NUL : ascii := ascii_of_nat 0.

(** [os.Setenv(key, value)] with its error dropped, as [init] does: the
    call is refused, and the environment left as it was, for an empty key,
    a key with ['='] or a NUL byte, or a value with a NUL byte. *)
Definition Setenv (env : GoOs.Environ) (key value : string) : GoOs.Environ :=
  if String.eqb key "" || hasByte key "=" || hasByte key NUL || hasByte value NUL
  then env
  else (key, value) :: env.

(** [net.JoinHostPort(host, port)]. *)
Definition JoinHostPort (host port : string) : string :=
  if hasByte host ":" then "[" ++ host ++ "]:" ++ port
  else host ++ ":" ++ port.

End GoEnv.

Section Init.

(** [strconv.Atoi], of which [init] only asks whether it succeeds. *)
Variable Atoi : string -> option Z.

(** [func init()]: LISTEN_ADDR is derived from PORT when only PORT is set
    and is an integer. *)
Definition init (env : GoOs.Environ) : GoOs.Environ :=
  let p := GoOs.Getenv env "PORT" in
  if negb (String.eqb p "") && String.eqb (GoOs.Getenv env "LISTEN_ADDR") "" then
    match Atoi p with
    | Some _ => GoEnv.Setenv env "LISTEN_ADDR" (GoEnv.JoinHostPort "" p)
    | None => env
    end
  else env.

End Init.

(** What [main] does once the configuration is resolved. *)
Inductive Startup :=
| FatalExit (msg : string)                    (* log.Fatalf: exit status 1 *)
| ServeTLS (addr cert key : string)           (* srv.ServeTLS(ln, cert, key) *)
| Serve (addr : string).                      (* srv.Serve(ln) *)

Definition errorOf (r : GoOs.StatResult) : option string :=
  match r with
  | GoOs.StatOk _ => None
  | GoOs.StatErr err => Some (GoOs.Error err)
  end.

(** [main] from [net.Listen] on.  [listen addr] is the error of
    [net.Listen("tcp", addr)], if any; [stat] is [os.Stat].  The result is
    the lines logged with [log.Printf] and how [main] goes on. *)
Definition startup (listen : string -> option string)
           (stat : string -> GoOs.StatResult) (cfg : Config)
  : list string * Startup :=
  match listen (listenAddr cfg) with
  | Some err => ([], FatalExit ("listen failed: " ++ err))
  | None =>
      let logged :=
        ["health server listening on " ++ listenAddr cfg
           ++ " (health file: " ++ healthFile cfg
           ++ ", maxAge: " ++ GoTime.String_ (maxAge cfg) ++ ")"] in
      if negb (String.eqb (certFile cfg) "") && negb (String.eqb (keyFile cfg) "")
      then
        match errorOf (stat (certFile cfg)) with
        | Some err => (logged, FatalExit ("cert file invalid: " ++ err))
        | None =>
            match errorOf (stat (keyFile cfg)) with
            | Some err => (logged, FatalExit ("key file invalid: " ++ err))
            | None =>
                (logged, ServeTLS (listenAddr cfg) (certFile cfg) (keyFile cfg))
            end
        end
      else (logged, Serve (listenAddr cfg))
  end.

Section Main.
Variable ParseDuration : string -> option GoTime.Duration.
Variables ToLower TrimSpace : string -> string.
Variable Atoi : string -> option Z.

(** The configuration of a process started in environment [env]: [init]
    runs before [main]. *)
Definition processConfig (env : GoOs.Environ) : Config :=
  loadConfig ParseDuration ToLower TrimSpace (init Atoi env).

End Main.

Example Atoi_examples :
  map GoStrconv.Atoi
      ["8080"; "+80"; "-1"; "0"; ""; "+"; "80a"; " 80"; "8_0"; "0x50";
       "9223372036854775807"; "9223372036854775808"; "-9223372036854775808";
       "-9223372036854775809"; "0000000000000000000080"]
  = [Some 8080; Some 80; Some (-1); Some 0; None; None; None; None; None; None;
     Some (2 ^ 63 - 1); None; Some (- 2 ^ 63); None; Some 80].
Proof. vm_compute. reflexivity. Qed.

(* ===================================================================== *)
(** ** Go's [path.Clean] and the mux's [cleanPath] *)
(* ===================================================================== *)

Module GoPath.

(** The output buffer of [Clean] is kept with its last byte first, so that
    [out.w] is the length of the list and [out.w--] drops its head. *)

(** The ".." case when [out.w > dotdot]: [out.w--], then
    [for out.w > dotdot && out.index(out.w) != '/' { out.w-- }]; the byte at
    index [out.w] is the one just dropped. *)
Fixpoint backtrack (out : list ascii) (dotdot : nat) : list ascii :=
  match out with
  | [] => []
  | x :: out' =>
      if (dotdot <? length out')%nat && negb (Ascii.eqb x "/")
      then backtrack out' dotdot
      else out'
  end.

(** [for ; r < n && path[r] != '/'; r++ { out.append(path[r]) }]. *)
Fixpoint copyElement (rest : string) (out : list ascii) : string * list ascii :=
  match rest with
  | EmptyString => (rest, out)
  | String c rest' =>
      if Ascii.eqb c "/" then (rest, out) else copyElement rest' (c :: out)
  end.

(** Whether [rest] is at its end or at a slash. *)
Definition atBoundary (rest : string) : bool :=
  match rest with
  | EmptyString => true
  | String c _ => Ascii.eqb c "/"
  end.

(** The loop [for r < n] of [Clean]; [rest] is [path[r:]].  Every round
    reads at least one byte, so the length of the path bounds the rounds. *)
Fixpoint cleanLoop (fuel : nat) (rooted : bool) (rest : string)
         (out : list ascii) (dotdot : nat) : list ascii :=
  match fuel, rest with
  | _, EmptyString => out
  | O, _ => out
  | S fuel', String c rest1 =>
      if Ascii.eqb c "/" then
        cleanLoop fuel' rooted rest1 out dotdot
      else if Ascii.eqb c "." && atBoundary rest1 then
        cleanLoop fuel' rooted rest1 out dotdot
      else
        match rest1 with
        | String "." rest2 =>
            if Ascii.eqb c "." && atBoundary rest2 then
              if (dotdot <? length out)%nat then
                cleanLoop fuel' rooted rest2 (backtrack out dotdot) dotdot
              else if negb rooted then
                let out := if (0 <? length out)%nat then "/"%char :: out else out in
                let out := "."%char :: "."%char :: out in
                cleanLoop fuel' rooted rest2 out (length out)
              else cleanLoop fuel' rooted rest2 out dotdot
            else
              let out :=
                if (rooted && negb (length out =? 1)%nat)
                   || (negb rooted && negb (length out =? 0)%nat)
                then "/"%char :: out else out in
              let '(rest', out) := copyElement rest out in
              cleanLoop fuel' rooted rest' out dotdot
        | _ =>
            let out :=
              if (rooted && negb (length out =? 1)%nat)
                 || (negb rooted && negb (length out =? 0)%nat)
              then "/"%char :: out else out in
            let '(rest', out) := copyElement rest out in
            cleanLoop fuel' rooted rest' out dotdot
        end
  end.

(** [path.Clean]. *)
Definition Clean (path : string) : string :=
  match path with
  | EmptyString => "."
  | String c rest =>
      let rooted := Ascii.eqb c "/" in
      let out :=
        if rooted then cleanLoop (String.length path) true rest ["/"%char] 1
        else cleanLoop (String.length path) false path [] 0 in
      match out with
      | [] => "."
      | _ => string_of_list_ascii (rev out)
      end
  end.

(** [cleanPath] of [net/http]: the canonical form under which the mux looks
    a request path up.  A request whose path differs from it is answered
    with a redirect to the canonical path, not by a handler. *)
Definition cleanPath (p : string) : string :=
  match p with
  | EmptyString => "/"
  | String c _ =>
      let p := if Ascii.eqb c "/" then p else String "/" p in
      let np := Clean p in
      if GoStrings.EndsInSlash p && negb (String.eqb np "/") then
        if (String.length p =? String.length np + 1)%nat
           && GoStrings.HasPrefix p np
        then p
        else np ++ "/"
      else np
  end.

End GoPath.

Example Clean_examples :
  map GoPath.Clean
      [""; "/"; "//"; "/foo"; "//foo"; "/foo/"; "/foo//bar"; "/./foo"; "/foo/.";
       "/x/../healthz"; "/.."; "/../.."; "/a/b/../../c"; "/a/.../b"; "/..a";
       "foo"; "./foo"; "../foo"; "a/../.."; "a/b/../../../c"; "."; ".."; "a/.."]
  = ["."; "/"; "/"; "/foo"; "/foo"; "/foo"; "/foo/bar"; "/foo"; "/foo";
     "/healthz"; "/"; "/"; "/c"; "/a/.../b"; "/..a";
     "foo"; "foo"; "../foo"; ".."; "../c"; "."; ".."; "."].
Proof. vm_compute. reflexivity. Qed.

Example cleanPath_examples :
  map GoPath.cleanPath
      [""; "/"; "/healthz"; "/healthz/"; "/foo"; "//foo"; "/x/../healthz";
       "/foo/./"; "/foo//"; "foo"; "/a/b/"; "/.."; "//"]
  = ["/"; "/"; "/healthz"; "/healthz/"; "/foo"; "/foo"; "/healthz";
     "/foo/"; "/foo/"; "/foo"; "/a/b/"; "/"; "/"].
Proof. vm_compute. reflexivity. Qed.

(* ===================================================================== *)
(** ** Facts about the library models *)
(* ===================================================================== *)

Module GoFacts.
Import GoStrings GoTime.

Lemma HasPrefix_app (p s : string) : HasPrefix (p ++ s) p = true.
Proof.
  induction p as [|c p IH]; simpl; [reflexivity|].
  rewrite Ascii.eqb_refl. exact IH.
Qed.

Lemma Contains_HasPrefix (s p : string) :
  HasPrefix s p = true -> Contains s p = true.
Proof. destruct s; simpl; intros ->; reflexivity. Qed.

Lemma Contains_app (a b c : string) : Contains (a ++ b ++ c) b = true.
Proof.
  induction a as [|x a IH].
  - change ("" ++ b ++ c) with (b ++ c).
    apply Contains_HasPrefix, HasPrefix_app.
  - simpl. rewrite IH. apply orb_true_r.
Qed.

Lemma append_empty_r (s : string) : s ++ "" = s.
Proof.
  induction s as [|x s IH]; [reflexivity|].
  change (String x (s ++ "") = String x s). now rewrite IH.
Qed.

Lemma append_assoc (a b c : string) : (a ++ b) ++ c = a ++ b ++ c.
Proof.
  induction a as [|x a IH]; [reflexivity|].
  change (String x ((a ++ b) ++ c) = String x (a ++ b ++ c)). now rewrite IH.
Qed.

Lemma Contains_tail (a b : string) : Contains (a ++ b) b = true.
Proof.
  rewrite <- (append_empty_r b) at 1. apply Contains_app.
Qed.

(** The difference of two instants is exact whenever it is a Duration. *)
Lemma Sub_exact (t u : Time) : in_int64 (t - u) -> Sub t u = t - u.
Proof.
  unfold in_int64, Sub. intros [Hlo Hhi].
  destruct (Z.ltb_spec (t - u) minDuration); [lia|].
  destruct (Z.ltb_spec maxDuration (t - u)); [lia | reflexivity].
Qed.

Lemma Sub_in_int64 (t u : Time) : in_int64 (Sub t u).
Proof.
  unfold in_int64, Sub, minDuration, maxDuration.
  destruct (Z.ltb_spec (t - u) (- 2 ^ 63)); [lia|].
  destruct (Z.ltb_spec (2 ^ 63 - 1) (t - u)); lia.
Qed.

(** [Round] to the second gives a whole number of seconds, at most half a
    second away, for every non-negative Duration that leaves room for it. *)
Lemma Round_Second (d : Duration) :
  0 <= d <= maxDuration - Second ->
  Round d Second mod Second = 0 /\
  - Second < 2 * (Round d Second - d) <= Second.
Proof.
  unfold maxDuration. intros Hd.
  assert (HS : Second = 1000000000) by reflexivity.
  unfold Round. rewrite HS in *.
  change (1000000000 <=? 0) with false. cbv iota.
  destruct (Z.ltb_spec d 0); [lia|].
  rewrite Z.rem_mod_nonneg by lia.
  pose proof (Z.mod_pos_bound d 1000000000 ltac:(lia)) as Hr.
  pose proof (Z.div_mod d 1000000000 ltac:(lia)) as Hdm.
  set (r := d mod 1000000000) in *.
  set (q := d / 1000000000) in *.
  unfold lessThanHalf, uint64, wrap64.
  rewrite (Z.mod_small r) by lia.
  rewrite (Z.mod_small (r + r)) by lia.
  rewrite (Z.mod_small 1000000000) by lia.
  destruct (Z.ltb_spec (r + r) 1000000000).
  - rewrite (Z.mod_small (d - r + 2 ^ 63)) by lia.
    replace (d - r + 2 ^ 63 - 2 ^ 63) with (1000000000 * q) by lia.
    split; [|lia].
    rewrite Z.mul_comm. apply Z.mod_mul. lia.
  - rewrite (Z.mod_small (d + 1000000000 - r + 2 ^ 63)) by lia.
    destruct (Z.ltb_spec d (d + 1000000000 - r + 2 ^ 63 - 2 ^ 63)); [|lia].
    replace (d + 1000000000 - r + 2 ^ 63 - 2 ^ 63) with ((q + 1) * 1000000000) by lia.
    split; [apply Z.mod_mul; lia | lia].
Qed.

(** [fmtInt_loop] needs no more rounds than the number has digits. *)
Lemma fmtInt_loop_fuel (n : nat) :
  forall (v : Z) (tail : string) (extra : nat),
    0 <= v < 10 ^ Z.of_nat n ->
    fmtInt_loop (n + extra) v tail = fmtInt_loop n v tail.
Proof.
  induction n as [|n IH]; intros v tail extra Hv.
  - simpl in Hv. assert (v = 0) by lia. subst v.
    destruct extra; reflexivity.
  - simpl Nat.add. cbn [fmtInt_loop].
    destruct (Z.ltb_spec 0 v); [|reflexivity].
    apply IH. rewrite Nat2Z.inj_succ, Z.pow_succ_r in Hv by lia.
    split; [apply Z.div_pos; lia|].
    apply Z.div_lt_upper_bound; lia.
Qed.

(** Twenty rounds are enough for any uint64. *)
Lemma fmtInt_loop_uint64 (v : Z) (tail : string) (extra : nat) :
  0 <= v < 2 ^ 64 ->
  fmtInt_loop (20 + extra) v tail = fmtInt_loop 20 v tail.
Proof.
  intros Hv. apply fmtInt_loop_fuel.
  change (10 ^ Z.of_nat 20) with 100000000000000000000.
  change (2 ^ 64) with 18446744073709551616 in Hv. lia.
Qed.

End GoFacts.

(* ===================================================================== *)
(** ** Worlds and inputs for closed examples *)
(* ===================================================================== *)

Definition regularFile (mtime : GoTime.Time) : GoOs.StatResult :=
  GoOs.StatOk {| GoOs.IsDir := false; GoOs.ModTime := mtime |}.

Definition directory (mtime : GoTime.Time) : GoOs.StatResult :=
  GoOs.StatOk {| GoOs.IsDir := true; GoOs.ModTime := mtime |}.

Definition missing : GoOs.StatResult :=
  GoOs.StatErr {| GoOs.IsNotExist := true;
                  GoOs.Error := "stat /tmp/newt-healthy: no such file or directory" |}.

Definition denied : GoOs.StatResult :=
  GoOs.StatErr {| GoOs.IsNotExist := false;
                  GoOs.Error := "stat /root/healthy: permission denied" |}.

(** A world where every path stats as [st], the clock reads [t], and
    [systemctl] exits as [rr] with the deadline passed or not as [dl]. *)
Definition worldOf (st : GoOs.StatResult) (t : GoTime.Time)
           (rr : RunResult) (dl : bool) : World :=
  {| stat := fun _ => st; now := t; handlerNow := t;
     run := fun _ _ => rr; deadlineExceeded := fun _ _ => dl |}.

(* ===================================================================== *)
(** ** The marker-file check *)
(* ===================================================================== *)

Section MarkerFile.
Import GoOs GoTime GoStrings.
Variable w : World.
Variable path : string.
Variable maxAge : Duration.

Lemma checkHealthFile_missing err :
  stat w path = StatErr err -> IsNotExist err = true ->
  checkHealthFile w path maxAge = (false, "health file missing").
Proof. unfold checkHealthFile. intros -> ->. reflexivity. Qed.

Lemma checkHealthFile_stat_error err :
  stat w path = StatErr err -> IsNotExist err = false ->
  checkHealthFile w path maxAge = (false, "stat error: " ++ Error err).
Proof. unfold checkHealthFile. intros -> ->. reflexivity. Qed.

Lemma checkHealthFile_directory fi :
  stat w path = StatOk fi -> IsDir fi = true ->
  checkHealthFile w path maxAge = (false, "health file path is a directory").
Proof. unfold checkHealthFile. intros -> ->. reflexivity. Qed.

Lemma checkHealthFile_no_age_check fi :
  stat w path = StatOk fi -> IsDir fi = false -> maxAge <= 0 ->
  checkHealthFile w path maxAge = (true, "present").
Proof.
  unfold checkHealthFile. intros -> -> Hle.
  destruct (Z.gtb_spec maxAge 0); [lia | reflexivity].
Qed.

Lemma checkHealthFile_fresh fi :
  stat w path = StatOk fi -> IsDir fi = false ->
  Sub (now w) (ModTime fi) <= maxAge ->
  checkHealthFile w path maxAge = (true, "present").
Proof.
  unfold checkHealthFile. intros -> -> Hle.
  destruct (Z.gtb_spec maxAge 0); [|reflexivity].
  destruct (Z.gtb_spec (Sub (now w) (ModTime fi)) maxAge); [lia | reflexivity].
Qed.

Lemma checkHealthFile_stale fi :
  stat w path = StatOk fi -> IsDir fi = false ->
  0 < maxAge -> maxAge < Sub (now w) (ModTime fi) ->
  checkHealthFile w path maxAge =
    (false, "health file too old: "
              ++ String_ (Round (Sub (now w) (ModTime fi)) Second)
              ++ " > " ++ String_ maxAge).
Proof.
  unfold checkHealthFile. intros -> -> Hpos Hold.
  destruct (Z.gtb_spec maxAge 0); [|lia].
  destruct (Z.gtb_spec (Sub (now w) (ModTime fi)) maxAge); [reflexivity | lia].
Qed.

End MarkerFile.

(** C6.  The marker-file check, case by case and in this order: a path that
    does not exist gives (false, "health file missing"); any other stat
    error gives false with the error's text after "stat error: "; a
    directory gives (false, "health file path is a directory") whatever its
    age; a regular file gives (true, "present") when the age check is off
    (maximum age not positive) or passes (age within the maximum). *)
Theorem checkHealthFile_cases (w : World) (path : string) (maxAge : GoTime.Duration) :
  (forall err, stat w path = GoOs.StatErr err -> GoOs.IsNotExist err = true ->
     checkHealthFile w path maxAge = (false, "health file missing")) /\
  (forall err, stat w path = GoOs.StatErr err -> GoOs.IsNotExist err = false ->
     checkHealthFile w path maxAge = (false, "stat error: " ++ GoOs.Error err) /\
     GoStrings.Contains (snd (checkHealthFile w path maxAge)) (GoOs.Error err) = true) /\
  (forall fi, stat w path = GoOs.StatOk fi -> GoOs.IsDir fi = true ->
     checkHealthFile w path maxAge = (false, "health file path is a directory")) /\
  (forall fi, stat w path = GoOs.StatOk fi -> GoOs.IsDir fi = false ->
     maxAge <= 0 \/ GoTime.Sub (now w) (GoOs.ModTime fi) <= maxAge ->
     checkHealthFile w path maxAge = (true, "present")).
Proof.
  repeat split.
  - apply checkHealthFile_missing.
  - now apply checkHealthFile_stat_error.
  - rewrite (checkHealthFile_stat_error w path maxAge err) by assumption.
    apply GoFacts.Contains_tail.
  - apply checkHealthFile_directory.
  - intros fi Hst Hdir [Hoff | Hfresh].
    + now apply (checkHealthFile_no_age_check w path maxAge fi).
    + now apply (checkHealthFile_fresh w path maxAge fi).
Qed.

(** The four cases of C6 at concrete worlds; the directory is also far older
    than the maximum age, and is still reported as a directory. *)
Lemma checkHealthFile_cases_witness :
  checkHealthFile (worldOf missing 0 RunNil false) "/tmp/newt-healthy" (2 * GoTime.Minute)
    = (false, "health file missing") /\
  checkHealthFile (worldOf denied 0 RunNil false) "/root/healthy" (2 * GoTime.Minute)
    = (false, "stat error: stat /root/healthy: permission denied") /\
  checkHealthFile (worldOf (directory 0) (GoTime.Hour) RunNil false)
                  "/tmp/newt-healthy" (2 * GoTime.Minute)
    = (false, "health file path is a directory") /\
  checkHealthFile (worldOf (regularFile 0) (GoTime.Minute) RunNil false)
                  "/tmp/newt-healthy" (2 * GoTime.Minute)
    = (true, "present").
Proof.
  split; [|split; [|split]].
  - apply (proj1 (checkHealthFile_cases _ _ _) {| GoOs.IsNotExist := true;
      GoOs.Error := "stat /tmp/newt-healthy: no such file or directory" |});
      reflexivity.
  - apply (proj1 (proj2 (checkHealthFile_cases
             (worldOf denied 0 RunNil false) "/root/healthy" (2 * GoTime.Minute)))
             {| GoOs.IsNotExist := false;
                GoOs.Error := "stat /root/healthy: permission denied" |});
      reflexivity.
  - apply (proj1 (proj2 (proj2 (checkHealthFile_cases _ _ _)))
             {| GoOs.IsDir := true; GoOs.ModTime := 0 |}); reflexivity.
  - apply (proj2 (proj2 (proj2 (checkHealthFile_cases _ _ _)))
             {| GoOs.IsDir := false; GoOs.ModTime := 0 |});
      [reflexivity | reflexivity | right; vm_compute; discriminate].
Defined.

(** C2, as amended.  For a regular file and a positive maximum age that the
    measured age exceeds, the check fails, and its message is
    "health file too old: AGE > MAX" where AGE is the age rounded to whole
    seconds with [Round] and MAX is the maximum age printed as it was
    configured, without rounding. *)
Theorem checkHealthFile_too_old
        (w : World) (path : string) (maxAge : GoTime.Duration) (fi : GoOs.FileInfo) :
  0 < maxAge ->
  stat w path = GoOs.StatOk fi -> GoOs.IsDir fi = false ->
  maxAge < GoTime.Sub (now w) (GoOs.ModTime fi) ->
  let age := GoTime.Sub (now w) (GoOs.ModTime fi) in
  let msg := snd (checkHealthFile w path maxAge) in
  fst (checkHealthFile w path maxAge) = false /\
  msg = "health file too old: " ++ GoTime.String_ (GoTime.Round age GoTime.Second)
          ++ " > " ++ GoTime.String_ maxAge /\
  GoStrings.Contains msg (GoTime.String_ (GoTime.Round age GoTime.Second)) = true /\
  GoStrings.Contains msg (GoTime.String_ maxAge) = true.
Proof.
  intros Hpos Hst Hdir Hold age msg. subst msg.
  rewrite (checkHealthFile_stale w path maxAge fi Hst Hdir Hpos Hold).
  fold age. cbn [fst snd].
  split; [reflexivity|]. split; [reflexivity|]. split.
  - apply GoFacts.Contains_app.
  - rewrite <- (GoFacts.append_assoc _ " > "), <- GoFacts.append_assoc.
    apply GoFacts.Contains_tail.
Qed.

(** C2 at a concrete input: the marker is three minutes old, the maximum
    age is two minutes. *)
Lemma checkHealthFile_too_old_witness :
  fst (checkHealthFile (worldOf (regularFile 0) (3 * GoTime.Minute) RunNil false)
                       "/tmp/newt-healthy" (2 * GoTime.Minute)) = false /\
  snd (checkHealthFile (worldOf (regularFile 0) (3 * GoTime.Minute) RunNil false)
                       "/tmp/newt-healthy" (2 * GoTime.Minute))
    = "health file too old: 3m0s > 2m0s".
Proof.
  pose proof (checkHealthFile_too_old
                (worldOf (regularFile 0) (3 * GoTime.Minute) RunNil false)
                "/tmp/newt-healthy" (2 * GoTime.Minute)
                {| GoOs.IsDir := false; GoOs.ModTime := 0 |}
                eq_refl eq_refl eq_refl eq_refl) as (Hok & Hmsg & _).
  split; [exact Hok | exact Hmsg].
Defined.

(** C2 as stated fails on the threshold: with a maximum age of 1.5s and a
    marker 10s old the message is "health file too old: 10s > 1.5s"; the
    threshold rounded to whole seconds would read "2s", which the message
    does not contain. *)
Lemma checkHealthFile_threshold_not_rounded :
  0 < 1500 * GoTime.Millisecond /\
  stat (worldOf (regularFile 0) (10 * GoTime.Second) RunNil false) "/tmp/newt-healthy"
    = regularFile 0 /\
  1500 * GoTime.Millisecond < 10 * GoTime.Second - 0 /\
  checkHealthFile (worldOf (regularFile 0) (10 * GoTime.Second) RunNil false)
                  "/tmp/newt-healthy" (1500 * GoTime.Millisecond)
    = (false, "health file too old: 10s > 1.5s") /\
  GoTime.String_ (GoTime.Round (1500 * GoTime.Millisecond) GoTime.Second) = "2s" /\
  GoStrings.Contains
    (snd (checkHealthFile (worldOf (regularFile 0) (10 * GoTime.Second) RunNil false)
                          "/tmp/newt-healthy" (1500 * GoTime.Millisecond)))
    (GoTime.String_ (GoTime.Round (1500 * GoTime.Millisecond) GoTime.Second)) = false.
Proof. vm_compute. repeat split; reflexivity. Qed.

(* ===================================================================== *)
(** ** The service-state check *)
(* ===================================================================== *)

(** C7.  The service-state check answers (true, "active") when [cmd.Run]
    returns nil; when it returns an error, (false, "systemctl timeout") if
    the context's deadline was exceeded and (false, "not active") otherwise,
    whatever the error was. *)
Theorem checkSystemd_cases (w : World) (unit : string) (timeout : GoTime.Duration) :
  (run w unit timeout = RunNil ->
     checkSystemd w unit timeout = (true, "active")) /\
  (run w unit timeout <> RunNil -> deadlineExceeded w unit timeout = true ->
     checkSystemd w unit timeout = (false, "systemctl timeout")) /\
  (run w unit timeout <> RunNil -> deadlineExceeded w unit timeout = false ->
     checkSystemd w unit timeout = (false, "not active")).
Proof.
  unfold checkSystemd.
  split; [|split].
  - intros ->. reflexivity.
  - intros Hne ->. destruct (run w unit timeout); congruence.
  - intros Hne ->. destruct (run w unit timeout); congruence.
Qed.

(** C7 at concrete worlds: the unit active; the query killed at the
    deadline; the unit inactive (exit status 3); systemctl not installed. *)
Lemma checkSystemd_cases_witness :
  checkSystemd (worldOf missing 0 RunNil false) "newt" (1 * GoTime.Second)
    = (true, "active") /\
  checkSystemd (worldOf missing 0 RunKilled true) "newt" (1 * GoTime.Second)
    = (false, "systemctl timeout") /\
  checkSystemd (worldOf missing 0 (RunExitError 3) false) "newt" (1 * GoTime.Second)
    = (false, "not active") /\
  checkSystemd (worldOf missing 0 RunNotFound false) "newt" (1 * GoTime.Second)
    = (false, "not active").
Proof.
  split; [|split; [|split]].
  - apply (proj1 (checkSystemd_cases _ _ _)). reflexivity.
  - apply (proj1 (proj2 (checkSystemd_cases _ _ _))); [discriminate | reflexivity].
  - apply (proj2 (proj2 (checkSystemd_cases _ _ _))); [discriminate | reflexivity].
  - apply (proj2 (proj2 (checkSystemd_cases _ _ _))); [discriminate | reflexivity].
Defined.

(* ===================================================================== *)
(** ** Configuration from the environment *)
(* ===================================================================== *)

Section Configuration.
Import GoOs GoTime.
Variable ParseDuration : string -> option Duration.
Variables ToLower TrimSpace : string -> string.

Lemma getenv_unset env k d : Getenv env k = "" -> getenv env k d = d.
Proof. unfold getenv. intros ->. reflexivity. Qed.

Lemma getenv_set env k d : Getenv env k <> "" -> getenv env k d = Getenv env k.
Proof.
  unfold getenv. intros Hne.
  destruct (String.eqb_spec (Getenv env k) ""); [contradiction | reflexivity].
Qed.

Lemma parseDurationEnv_default env k d :
  Getenv env k = "" \/ ParseDuration (Getenv env k) = None ->
  parseDurationEnv ParseDuration env k d = d.
Proof.
  unfold parseDurationEnv. intros [-> | ->]; [reflexivity|].
  destruct (String.eqb _ _); reflexivity.
Qed.

Lemma parseDurationEnv_parsed env k d dd :
  Getenv env k <> "" -> ParseDuration (Getenv env k) = Some dd ->
  parseDurationEnv ParseDuration env k d = dd.
Proof.
  unfold parseDurationEnv. intros Hne ->.
  destruct (String.eqb_spec (Getenv env k) ""); [contradiction | reflexivity].
Qed.

End Configuration.

(** C10.  For MAX_AGE and for SYSTEMD_TIMEOUT: when the variable is unset
    (or empty) or [time.ParseDuration] rejects its value, the configuration
    holds the built-in default, 2m and 1s respectively; resolving the
    configuration is a total function, so no value makes it fail. *)
Theorem duration_settings_default
        (ParseDuration : string -> option GoTime.Duration)
        (ToLower TrimSpace : string -> string) (env : GoOs.Environ) :
  (GoOs.Getenv env "MAX_AGE" = ""
   \/ ParseDuration (GoOs.Getenv env "MAX_AGE") = None ->
   maxAge (loadConfig ParseDuration ToLower TrimSpace env) = 2 * GoTime.Minute) /\
  (GoOs.Getenv env "SYSTEMD_TIMEOUT" = ""
   \/ ParseDuration (GoOs.Getenv env "SYSTEMD_TIMEOUT") = None ->
   systemdTimeout (loadConfig ParseDuration ToLower TrimSpace env) = 1 * GoTime.Second).
Proof.
  split; intros Hbad; cbn [loadConfig maxAge systemdTimeout];
    now apply parseDurationEnv_default.
Qed.

(** C10 at a concrete environment: MAX_AGE is malformed, SYSTEMD_TIMEOUT is
    not set. *)
Lemma duration_settings_default_witness :
  maxAge (loadConfig GoTime.ParseDuration_whole GoStrings.ToLower_ascii
                     GoStrings.TrimSpace_ascii [("MAX_AGE", "two minutes")])
    = 2 * GoTime.Minute /\
  systemdTimeout (loadConfig GoTime.ParseDuration_whole GoStrings.ToLower_ascii
                             GoStrings.TrimSpace_ascii [("MAX_AGE", "two minutes")])
    = 1 * GoTime.Second.
Proof.
  split.
  - apply (proj1 (duration_settings_default _ _ _ _)). right. reflexivity.
  - apply (proj2 (duration_settings_default _ _ _ _)). left. reflexivity.
Defined.

Example ParseDuration_whole_examples :
  map GoTime.ParseDuration_whole
      ["0"; "2m"; "1s"; "30s"; "1h30m"; "-5ms"; "90"; "two minutes"; ""; "+"; "5 m";
       "9223372036854775807ns"; "9223372036854775808ns"; "2562048h"]
  = [Some 0; Some (2 * GoTime.Minute); Some GoTime.Second; Some (30 * GoTime.Second);
     Some (90 * GoTime.Minute); Some (-5 * GoTime.Millisecond); None; None; None;
     None; None; Some GoTime.maxDuration; None; None].
Proof. vm_compute. reflexivity. Qed.

(** C5.  With NEWT_HEALTH_FILE unset (or empty) the marker path of the
    configuration is "/tmp/newt-healthy"; it is not "/run/newt/healthy",
    the default the README documents. *)
Theorem healthFile_default
        (ParseDuration : string -> option GoTime.Duration)
        (ToLower TrimSpace : string -> string) (env : GoOs.Environ) :
  GoOs.Getenv env "NEWT_HEALTH_FILE" = "" ->
  healthFile (loadConfig ParseDuration ToLower TrimSpace env) = "/tmp/newt-healthy" /\
  healthFile (loadConfig ParseDuration ToLower TrimSpace env) <> "/run/newt/healthy".
Proof.
  intros Hunset. cbn [loadConfig healthFile].
  rewrite (getenv_unset env _ _ Hunset). split; [reflexivity | discriminate].
Qed.

Lemma healthFile_default_witness :
  healthFile (loadConfig GoTime.ParseDuration_whole GoStrings.ToLower_ascii
                         GoStrings.TrimSpace_ascii []) = "/tmp/newt-healthy" /\
  healthFile (loadConfig GoTime.ParseDuration_whole GoStrings.ToLower_ascii
                         GoStrings.TrimSpace_ascii []) <> "/run/newt/healthy".
Proof. apply healthFile_default. reflexivity. Defined.

(** C9, as amended.  A maximum age of zero turns the age check off: a
    regular file passes whatever its modification time.  An absent MAX_AGE
    does not: the maximum age is then the default of two minutes, under
    which the age check is in force. *)
Theorem age_check_disabled_by_zero
        (ParseDuration : string -> option GoTime.Duration)
        (ToLower TrimSpace : string -> string) :
  (forall (w : World) (path : string) (fi : GoOs.FileInfo),
     stat w path = GoOs.StatOk fi -> GoOs.IsDir fi = false ->
     checkHealthFile w path 0 = (true, "present")) /\
  (forall env : GoOs.Environ,
     GoOs.Getenv env "MAX_AGE" = "" ->
     maxAge (loadConfig ParseDuration ToLower TrimSpace env) = 2 * GoTime.Minute /\
     forall (w : World) (path : string) (fi : GoOs.FileInfo),
       stat w path = GoOs.StatOk fi -> GoOs.IsDir fi = false ->
       2 * GoTime.Minute < GoTime.Sub (now w) (GoOs.ModTime fi) ->
       fst (checkHealthFile w path
              (maxAge (loadConfig ParseDuration ToLower TrimSpace env))) = false).
Proof.
  split.
  - intros w path fi Hst Hdir.
    now apply (checkHealthFile_no_age_check w path 0 fi).
  - intros env Hunset.
    assert (Hdef : maxAge (loadConfig ParseDuration ToLower TrimSpace env)
                   = 2 * GoTime.Minute).
    { cbn [loadConfig maxAge]. apply parseDurationEnv_default. now left. }
    split; [exact Hdef|].
    intros w path fi Hst Hdir Hold. rewrite Hdef.
    rewrite (checkHealthFile_stale w path (2 * GoTime.Minute) fi Hst Hdir eq_refl Hold).
    reflexivity.
Qed.

(** C9 at concrete inputs: with a zero maximum age a marker last touched an
    hour ago passes; with MAX_AGE absent the maximum age is two minutes. *)
Lemma age_check_disabled_by_zero_witness :
  checkHealthFile (worldOf (regularFile 0) GoTime.Hour RunNil false)
                  "/tmp/newt-healthy" 0 = (true, "present") /\
  maxAge (loadConfig GoTime.ParseDuration_whole GoStrings.ToLower_ascii
                     GoStrings.TrimSpace_ascii []) = 2 * GoTime.Minute.
Proof.
  split.
  - apply (proj1 (age_check_disabled_by_zero GoTime.ParseDuration_whole
                    GoStrings.ToLower_ascii GoStrings.TrimSpace_ascii)
             _ _ {| GoOs.IsDir := false; GoOs.ModTime := 0 |}); reflexivity.
  - apply (proj2 (age_check_disabled_by_zero GoTime.ParseDuration_whole
                    GoStrings.ToLower_ascii GoStrings.TrimSpace_ascii) []).
    reflexivity.
Defined.

(** C9 as stated fails when the setting is absent: with no MAX_AGE in the
    environment the maximum age is two minutes, and a regular file last
    touched three minutes ago fails the check. *)
Lemma age_check_on_when_MAX_AGE_absent :
  GoOs.Getenv [] "MAX_AGE" = "" /\
  stat (worldOf (regularFile 0) (3 * GoTime.Minute) RunNil false) "/tmp/newt-healthy"
    = regularFile 0 /\
  checkHealthFile (worldOf (regularFile 0) (3 * GoTime.Minute) RunNil false)
    "/tmp/newt-healthy"
    (maxAge (loadConfig GoTime.ParseDuration_whole GoStrings.ToLower_ascii
                        GoStrings.TrimSpace_ascii []))
    = (false, "health file too old: 3m0s > 2m0s").
Proof. vm_compute. repeat split; reflexivity. Qed.

(* ===================================================================== *)
(** ** The aggregator *)
(* ===================================================================== *)

Section Aggregator.
Variable cfg : Config.
Variable w : World.

(** The two entries a poll may put into the checks map. *)
Definition fileDetail : CheckDetail :=
  {| CheckOK := fst (checkHealthFile w (healthFile cfg) (maxAge cfg));
     Message := snd (checkHealthFile w (healthFile cfg) (maxAge cfg)) |}.

Definition systemdDetail : CheckDetail :=
  {| CheckOK := fst (checkSystemd w (systemdUnit cfg) (systemdTimeout cfg));
     Message := snd (checkSystemd w (systemdUnit cfg) (systemdTimeout cfg)) |}.

Lemma healthzResult_disabled :
  enableSystemd cfg = false ->
  healthzResult cfg w =
    {| OK := CheckOK fileDetail; Now := handlerNow w;
       Checks := {[ "newt_health_file" := fileDetail ]} |}.
Proof.
  intros Hoff. unfold healthzResult, fileDetail. rewrite Hoff.
  destruct (checkHealthFile w (healthFile cfg) (maxAge cfg)) as [okFile msgFile].
  reflexivity.
Qed.

Lemma healthzResult_enabled :
  enableSystemd cfg = true ->
  healthzResult cfg w =
    {| OK := CheckOK fileDetail && CheckOK systemdDetail; Now := handlerNow w;
       Checks := <["systemd" := systemdDetail]>
                   {[ "newt_health_file" := fileDetail ]} |}.
Proof.
  intros Hon. unfold healthzResult, fileDetail, systemdDetail. rewrite Hon.
  destruct (checkHealthFile w (healthFile cfg) (maxAge cfg)) as [okFile msgFile].
  destruct (checkSystemd w (systemdUnit cfg) (systemdTimeout cfg)) as [okSys msgSys].
  reflexivity.
Qed.

(** The verdict is the conjunction over the entries of the checks map. *)
Lemma healthzResult_OK_Forall :
  OK (healthzResult cfg w) = true <->
  map_Forall (fun _ d => CheckOK d = true) (Checks (healthzResult cfg w)).
Proof.
  destruct (enableSystemd cfg) eqn:Hsys.
  - rewrite healthzResult_enabled by assumption. cbn [OK Checks].
    rewrite map_Forall_insert by (apply lookup_singleton_ne; discriminate).
    rewrite map_Forall_singleton, andb_true_iff. tauto.
  - rewrite healthzResult_disabled by assumption. cbn [OK Checks].
    rewrite map_Forall_singleton. tauto.
Qed.

Lemma healthzResult_OK :
  OK (healthzResult cfg w) =
    CheckOK fileDetail && (if enableSystemd cfg then CheckOK systemdDetail else true).
Proof.
  destruct (enableSystemd cfg) eqn:Hsys.
  - now rewrite healthzResult_enabled.
  - rewrite healthzResult_disabled by assumption. cbn [OK].
    now rewrite andb_true_r.
Qed.

End Aggregator.

(* ===================================================================== *)
(** ** Routing and the responses *)
(* ===================================================================== *)

Section Serving.
Import GoHttp.
Variable Marshal : Result -> string.
Variable DetectContentType : string -> string.
Variable cfg : Config.
Variable w : World.

Lemma mux_healthz :
  muxHandler Marshal cfg w "/healthz" = healthzHandler Marshal cfg w.
Proof.
  unfold muxHandler, match_, mux, Handle, NewServeMux. cbn [m es].
  rewrite lookup_insert_ne by discriminate.
  now rewrite lookup_insert_eq.
Qed.

(** Every other path that begins with a slash falls to the pattern "/". *)
Lemma mux_root (path : string) :
  GoStrings.HasPrefix path "/" = true -> path <> "/healthz" ->
  muxHandler Marshal cfg w path = rootHandler.
Proof.
  intros Hslash Hne.
  unfold muxHandler, match_, mux, Handle, NewServeMux. cbn [m es].
  destruct (decide (path = "/")) as [-> | Hnr].
  - now rewrite lookup_insert_eq.
  - rewrite lookup_insert_ne by congruence.
    rewrite lookup_insert_ne by congruence.
    rewrite lookup_empty.
    cbn -[GoStrings.HasPrefix]. now rewrite Hslash.
Qed.

(** Only a path without the leading slash matches no pattern. *)
Lemma mux_not_found (path : string) :
  GoStrings.HasPrefix path "/" = false ->
  muxHandler Marshal cfg w path = NotFoundHandler.
Proof.
  intros Hslash.
  assert (path <> "/") by (intros ->; discriminate Hslash).
  assert (path <> "/healthz") by (intros ->; discriminate Hslash).
  unfold muxHandler, match_, mux, Handle, NewServeMux. cbn [m es].
  rewrite lookup_insert_ne by congruence.
  rewrite lookup_insert_ne by congruence.
  rewrite lookup_empty. cbn -[GoStrings.HasPrefix]. now rewrite Hslash.
Qed.

Lemma append_newline_nonempty (s : string) :
  String.eqb (s ++ newline) "" = false.
Proof. destruct s; reflexivity. Qed.

(** The response writer when the /healthz handler returns: the status is
    fixed, the sent header was snapshotted empty, and the Content-Type
    sits in the handler's own map only. *)
Lemma healthzHandler_writer (r : Request) :
  healthzHandler Marshal cfg w r newResponse =
    {| handlerHeader := {[ "Content-Type" := "application/json" ]};
       calledHeader := true;
       wroteHeader := true;
       status := if OK (healthzResult cfg w) then StatusOK
                 else StatusServiceUnavailable;
       cw_header := Some ∅;
       written := Marshal (healthzResult cfg w) ++ newline |}.
Proof.
  unfold healthzHandler, Encode.
  destruct (OK (healthzResult cfg w)); reflexivity.
Qed.

Lemma serve_healthz (r : Request) :
  URL_Path r = "/healthz" ->
  serve Marshal DetectContentType cfg w r =
    {| StatusCode := if OK (healthzResult cfg w) then StatusOK
                     else StatusServiceUnavailable;
       RespHeader :=
         {[ "Content-Type" :=
              DetectContentType (Marshal (healthzResult cfg w) ++ newline) ]};
       Body := Marshal (healthzResult cfg w) ++ newline |}.
Proof.
  intros Hpath. unfold serve. rewrite Hpath, mux_healthz, healthzHandler_writer.
  unfold finishRequest, sentHeader.
  cbn [wroteHeader status cw_header written handlerHeader].
  rewrite append_newline_nonempty.
  destruct (OK (healthzResult cfg w)); reflexivity.
Qed.

Lemma serve_root (r : Request) :
  GoStrings.HasPrefix (URL_Path r) "/" = true -> URL_Path r <> "/healthz" ->
  serve Marshal DetectContentType cfg w r =
    {| StatusCode := StatusOK;
       RespHeader := {[ "Content-Type" := DetectContentType ("ok" ++ newline) ]};
       Body := "ok" ++ newline |}.
Proof.
  intros Hslash Hne. unfold serve. rewrite mux_root by assumption.
  reflexivity.
Qed.

End Serving.

(** The configuration of an empty environment, and two requests. *)
Definition defaultConfig : Config :=
  loadConfig GoTime.ParseDuration_whole GoStrings.ToLower_ascii
             GoStrings.TrimSpace_ascii [].

Definition getHealthz : Request := {| Method := "GET"; URL_Path := "/healthz" |}.
Definition getFoo : Request := {| Method := "GET"; URL_Path := "/foo" |}.

Example defaultConfig_value :
  defaultConfig =
    {| listenAddr := ":8443"; healthFile := "/tmp/newt-healthy";
       maxAge := 120000000000; certFile := ""; keyFile := "";
       enableSystemd := false; systemdUnit := "newt";
       systemdTimeout := 1000000000 |}.
Proof. reflexivity. Qed.

(** The pattern lookup falls back to [http.NotFound] only for a path
    without the leading slash; no request reaches it with one, since a
    canonical path begins with a slash ([GoPathFacts.canonical_HasPrefix]).
    The lemma exercises the response writer on that fallback: a Content-Type
    that [http.Error] sets before it fixes the status is the one sent. *)
Lemma serve_not_found Marshal DetectContentType cfg w (r : Request) :
  GoStrings.HasPrefix (URL_Path r) "/" = false ->
  serve Marshal DetectContentType cfg w r =
    {| GoHttp.StatusCode := GoHttp.StatusNotFound;
       GoHttp.RespHeader :=
         <["X-Content-Type-Options" := "nosniff"]>
           {[ "Content-Type" := "text/plain; charset=utf-8" ]};
       GoHttp.Body := "404 page not found" ++ newline |}.
Proof.
  intros Hslash. unfold serve. rewrite mux_not_found by assumption.
  unfold NotFoundHandler, GoHttp.NotFound, GoHttp.Error, GoHttp.finishRequest,
    GoHttp.sentHeader.
  cbn [GoHttp.Write GoHttp.WriteHeader GoHttp.Header_Set GoHttp.Header_
       GoHttp.newResponse GoHttp.wroteHeader GoHttp.status GoHttp.cw_header
       GoHttp.written GoHttp.handlerHeader GoHttp.calledHeader].
  f_equal.
Qed.

(** C1.  The response to /healthz.  Its body is the JSON document of the
    verdict; the checks map holds exactly the checks that were executed; the
    verdict's [ok] is the conjunction of their [ok]; the status is 200
    exactly when every executed check is ok and 503 otherwise; and [ok] in
    the body is true exactly when the status is 200. *)
Theorem healthz_status_and_verdict
        (Marshal : Result -> string) (DetectContentType : string -> string)
        (cfg : Config) (w : World) (meth : string) :
  let res := healthzResult cfg w in
  let resp := serve Marshal DetectContentType cfg w
                    {| Method := meth; URL_Path := "/healthz" |} in
  let all_ok := map_Forall (fun (_ : string) d => CheckOK d = true) (Checks res) in
  GoHttp.Body resp = Marshal res ++ newline /\
  Checks res = (if enableSystemd cfg
                then <["systemd" := systemdDetail cfg w]>
                       {[ "newt_health_file" := fileDetail cfg w ]}
                else {[ "newt_health_file" := fileDetail cfg w ]}) /\
  OK res = CheckOK (fileDetail cfg w)
           && (if enableSystemd cfg then CheckOK (systemdDetail cfg w) else true) /\
  (OK res = true <-> all_ok) /\
  (GoHttp.StatusCode resp = 200 <-> all_ok) /\
  (~ all_ok -> GoHttp.StatusCode resp = 503) /\
  (OK res = true <-> GoHttp.StatusCode resp = 200).
Proof.
  intros res resp all_ok. subst resp all_ok.
  rewrite serve_healthz by reflexivity. fold res.
  cbn [GoHttp.Body GoHttp.StatusCode].
  pose proof (healthzResult_OK_Forall cfg w) as Hall. fold res in Hall.
  split; [reflexivity|]. split.
  { subst res. destruct (enableSystemd cfg) eqn:Hsys.
    - now rewrite healthzResult_enabled.
    - now rewrite healthzResult_disabled. }
  split; [apply healthzResult_OK|].
  split; [exact Hall|].
  rewrite <- Hall.
  destruct (OK res); unfold GoHttp.StatusOK, GoHttp.StatusServiceUnavailable;
    repeat split; intros; try reflexivity; try congruence; try discriminate.
Qed.

(** C8.  With the service-state check disabled, the checks map has no
    "systemd" key, the verdict is the marker-file check's result, and both
    the verdict and the response are the same whatever [systemctl] would
    have reported. *)
Theorem systemd_disabled_frame (cfg : Config) (w : World) :
  enableSystemd cfg = false ->
  let res := healthzResult cfg w in
  Checks res !! "systemd" = None /\
  Checks res = {[ "newt_health_file" := fileDetail cfg w ]} /\
  OK res = fst (checkHealthFile w (healthFile cfg) (maxAge cfg)) /\
  forall (run' : string -> GoTime.Duration -> RunResult)
         (deadlineExceeded' : string -> GoTime.Duration -> bool),
    let w' := {| stat := stat w; now := now w; handlerNow := handlerNow w;
                 run := run'; deadlineExceeded := deadlineExceeded' |} in
    healthzResult cfg w' = res /\
    forall Marshal DetectContentType (r : Request),
      URL_Path r = "/healthz" ->
      serve Marshal DetectContentType cfg w' r
      = serve Marshal DetectContentType cfg w r.
Proof.
  intros Hoff res.
  pose proof (healthzResult_disabled cfg w Hoff) as Hres. fold res in Hres.
  split; [rewrite Hres; apply lookup_singleton_ne; discriminate|].
  split; [now rewrite Hres|]. split; [now rewrite Hres|].
  intros run' dl' w'.
  assert (Hres' : healthzResult cfg w' = res).
  { rewrite Hres. subst w'. now rewrite healthzResult_disabled. }
  split; [exact Hres'|].
  intros Marshal DetectContentType r Hpath.
  rewrite !serve_healthz by assumption.
  fold res. now rewrite Hres'.
Qed.

(** C8 at a concrete input: the default configuration leaves the check
    disabled; the marker is fresh, the unit is not active (exit status 3),
    and the verdict is true. *)
Lemma systemd_disabled_frame_witness :
  Checks (healthzResult defaultConfig
            (worldOf (regularFile 0) GoTime.Minute (RunExitError 3) false))
    !! "systemd" = None /\
  OK (healthzResult defaultConfig
        (worldOf (regularFile 0) GoTime.Minute (RunExitError 3) false)) = true.
Proof.
  pose proof (systemd_disabled_frame defaultConfig
                (worldOf (regularFile 0) GoTime.Minute (RunExitError 3) false)
                eq_refl) as (Hkey & _ & Hok & _).
  split; [exact Hkey|]. rewrite Hok. reflexivity.
Defined.

(** Facts about [cleanPath]: a canonical path begins with a slash. *)
Module GoPathFacts.
Import GoPath.

Lemma backtrack_keeps_root (pre : list ascii) :
  pre <> [] -> exists pre', backtrack (pre ++ ["/"%char])%list 1 = (pre' ++ ["/"%char])%list.
Proof.
  induction pre as [|x pre IH]; [congruence|]. intros _.
  cbn [app backtrack].
  destruct ((1 <? length (pre ++ ["/"%char])%list)%nat && negb (Ascii.eqb x "/")) eqn:E.
  - apply andb_true_iff in E as [Hlen _]. apply Nat.ltb_lt in Hlen.
    apply IH. intros ->. cbn in Hlen. lia.
  - now exists pre.
Qed.

Lemma copyElement_keeps_root (rest : string) :
  forall pre, exists rest' pre',
    copyElement rest (pre ++ ["/"%char])%list = (rest', (pre' ++ ["/"%char])%list).
Proof.
  induction rest as [|c rest IH]; intros pre; cbn [copyElement].
  - now exists EmptyString, pre.
  - destruct (Ascii.eqb c "/").
    + now exists (String c rest), pre.
    + apply (IH (c :: pre)).
Qed.

(** In a rooted path the leading slash stays at the bottom of the buffer. *)
Lemma cleanLoop_keeps_root (fuel : nat) :
  forall rest pre, exists pre',
    cleanLoop fuel true rest (pre ++ ["/"%char])%list 1 = (pre' ++ ["/"%char])%list.
Proof.
  assert (Hreal : forall fuel', (forall rest pre, exists pre',
              cleanLoop fuel' true rest (pre ++ ["/"%char])%list 1 = (pre' ++ ["/"%char])%list) ->
            forall rest pre, exists pre',
              (let out :=
                 if (true && negb (length (pre ++ ["/"%char])%list =? 1)%nat)
                    || (negb true && negb (length (pre ++ ["/"%char])%list =? 0)%nat)
                 then ("/"%char :: pre ++ ["/"%char])%list else (pre ++ ["/"%char])%list in
               let '(rest', out) := copyElement rest out in
               cleanLoop fuel' true rest' out 1) = (pre' ++ ["/"%char])%list).
  { intros fuel' IH rest pre. cbv zeta.
    destruct ((true && negb (length (pre ++ ["/"%char])%list =? 1)%nat)
              || (negb true && negb (length (pre ++ ["/"%char])%list =? 0)%nat)).
    - destruct (copyElement_keeps_root rest ("/"%char :: pre)) as (rest' & pre' & E).
      cbn [app] in E. rewrite E. apply IH.
    - destruct (copyElement_keeps_root rest pre) as (rest' & pre' & E).
      rewrite E. apply IH. }
  induction fuel as [|fuel IH]; intros rest pre.
  - destruct rest; now exists pre.
  - destruct rest as [|c rest1]; [now exists pre|].
    cbn [cleanLoop].
    destruct (Ascii.eqb c "/"); [apply IH|].
    destruct (Ascii.eqb c "." && atBoundary rest1); [apply IH|].
    destruct rest1 as [|c1 rest2]; [apply (Hreal fuel IH)|].
    destruct (Ascii.eqb_spec c1 "."); [subst c1 | ].
    + destruct (Ascii.eqb c "." && atBoundary rest2); [|apply (Hreal fuel IH)].
      destruct (1 <? length (pre ++ ["/"%char])%list)%nat eqn:Hlen.
      * destruct pre as [|x pre]; [discriminate Hlen|].
        destruct (backtrack_keeps_root (x :: pre) ltac:(discriminate)) as (pre' & E).
        rewrite E. apply IH.
      * cbn [negb]. apply IH.
    + destruct c1 as [[] [] [] [] [] [] [] []]; try apply (Hreal fuel IH).
      congruence.
Qed.

Lemma string_of_rev_root (pre : list ascii) :
  string_of_list_ascii (rev (pre ++ ["/"%char])%list)
  = String "/" (string_of_list_ascii (rev pre)).
Proof. rewrite rev_app_distr. reflexivity. Qed.

Lemma Clean_rooted (rest : string) :
  exists t, Clean (String "/" rest) = String "/" t.
Proof.
  unfold Clean. change (Ascii.eqb "/" "/") with true. cbv iota zeta.
  destruct (cleanLoop_keeps_root (String.length (String "/" rest)) rest [])
    as (pre' & E).
  cbn [app] in E. rewrite E.
  destruct (pre' ++ ["/"%char])%list eqn:E'; [now destruct pre'|].
  rewrite <- E', string_of_rev_root. eauto.
Qed.

Lemma cleanPath_rooted (p : string) :
  exists t, cleanPath p = String "/" t.
Proof.
  unfold cleanPath. destruct p as [|c p']; [now exists EmptyString|].
  destruct (Ascii.eqb_spec c "/") as [-> | Hc].
  - destruct (Clean_rooted p') as (t & ->).
    destruct (_ && _); [|eauto].
    destruct (_ && _); [eauto|]. exists (t ++ "/"). reflexivity.
  - destruct (Clean_rooted (String c p')) as (t & ->).
    destruct (_ && _); [|eauto].
    destruct (_ && _); [eauto|]. exists (t ++ "/"). reflexivity.
Qed.

(** A path that [cleanPath] leaves unchanged begins with a slash. *)
Lemma canonical_HasPrefix (p : string) :
  cleanPath p = p -> GoStrings.HasPrefix p "/" = true.
Proof.
  intros Hp. destruct (cleanPath_rooted p) as (t & Ht).
  rewrite Hp in Ht. subst p. reflexivity.
Qed.

End GoPathFacts.

(** C3, as amended.  A GET request whose path is in the mux's canonical
    form ([cleanPath] leaves it unchanged, so the mux does not redirect it)
    and is not /healthz is matched by the pattern "/" and answered by the
    root handler: status 200, body "ok" and a newline.  It is not answered
    404. *)
Theorem other_paths_served_by_root
        (Marshal : Result -> string) (DetectContentType : string -> string)
        (cfg : Config) (w : World) (r : Request) :
  Method r = "GET" ->
  GoPath.cleanPath (URL_Path r) = URL_Path r ->
  URL_Path r <> "/healthz" ->
  let resp := serve Marshal DetectContentType cfg w r in
  muxHandler Marshal cfg w (URL_Path r) = rootHandler /\
  GoHttp.StatusCode resp = 200 /\
  GoHttp.Body resp = "ok" ++ newline /\
  GoHttp.StatusCode resp <> GoHttp.StatusNotFound.
Proof.
  intros _ Hclean Hne resp. subst resp.
  pose proof (GoPathFacts.canonical_HasPrefix _ Hclean) as Hslash.
  rewrite serve_root by assumption.
  split; [now apply mux_root|].
  cbn [GoHttp.StatusCode GoHttp.Body].
  split; [reflexivity|]. split; [reflexivity | discriminate].
Qed.

(** C3 at the request GET /foo, in the default configuration. *)
Lemma other_paths_served_by_root_witness :
  GoHttp.StatusCode
    (serve (fun _ => "{}") (fun _ => "text/plain; charset=utf-8") defaultConfig
           (worldOf missing 0 RunNil false) getFoo) = 200 /\
  GoHttp.Body
    (serve (fun _ => "{}") (fun _ => "text/plain; charset=utf-8") defaultConfig
           (worldOf missing 0 RunNil false) getFoo) = "ok" ++ newline.
Proof.
  pose proof (other_paths_served_by_root
                (fun _ => "{}") (fun _ => "text/plain; charset=utf-8") defaultConfig
                (worldOf missing 0 RunNil false) getFoo eq_refl eq_refl
                ltac:(discriminate)) as (_ & Hstatus & Hbody & _).
  split; [exact Hstatus | exact Hbody].
Defined.

(** C3 as stated fails: the path /foo is neither /healthz nor /, and the
    response to it is the root handler's 200 with body "ok", not a 404,
    whatever the configuration and the state of the host. *)
Lemma unknown_path_gets_root_response :
  URL_Path getFoo <> "/healthz" /\
  URL_Path getFoo <> "/" /\
  (forall (Marshal : Result -> string) (DetectContentType : string -> string)
          (cfg : Config) (w : World),
     GoHttp.StatusCode (serve Marshal DetectContentType cfg w getFoo) = 200 /\
     GoHttp.Body (serve Marshal DetectContentType cfg w getFoo) = "ok" ++ newline /\
     GoHttp.StatusCode (serve Marshal DetectContentType cfg w getFoo)
       <> GoHttp.StatusNotFound).
Proof.
  split; [discriminate|]. split; [discriminate|].
  intros Marshal DetectContentType cfg w.
  rewrite serve_root by (reflexivity || discriminate).
  cbn [GoHttp.StatusCode GoHttp.Body].
  split; [reflexivity|]. split; [reflexivity | discriminate].
Qed.

(** C4.  The /healthz handler sets Content-Type after it has fixed the
    status.  When it returns, "application/json" is in the handler's own
    header map, the header that is sent was snapshotted empty, and the
    Content-Type of the response is whatever the server sniffs from the
    body: it is "application/json" only if the sniffer says so. *)
Theorem healthz_content_type_not_applied
        (Marshal : Result -> string) (DetectContentType : string -> string)
        (cfg : Config) (w : World) (meth : string) :
  let r := {| Method := meth; URL_Path := "/healthz" |} in
  let rw := healthzHandler Marshal cfg w r GoHttp.newResponse in
  let resp := serve Marshal DetectContentType cfg w r in
  GoHttp.handlerHeader rw !! "Content-Type" = Some "application/json" /\
  GoHttp.cw_header rw = Some ∅ /\
  GoHttp.RespHeader resp !! "Content-Type"
    = Some (DetectContentType (GoHttp.Body resp)) /\
  (GoHttp.RespHeader resp !! "Content-Type" = Some "application/json"
   <-> DetectContentType (GoHttp.Body resp) = "application/json").
Proof.
  intros r rw resp. subst rw resp.
  rewrite healthzHandler_writer, serve_healthz by reflexivity.
  cbn [GoHttp.handlerHeader GoHttp.cw_header GoHttp.RespHeader GoHttp.Body].
  rewrite !lookup_singleton_eq.
  split; [reflexivity|]. split; [reflexivity|]. split; [reflexivity|].
  split; congruence.
Qed.

(** The status is fixed before the first byte of the body: after the
    handler's [WriteHeader] nothing has been written yet. *)
Lemma healthz_status_before_body (code : Z) :
  GoHttp.wroteHeader (GoHttp.WriteHeader code GoHttp.newResponse) = true /\
  GoHttp.status (GoHttp.WriteHeader code GoHttp.newResponse) = code /\
  GoHttp.written (GoHttp.WriteHeader code GoHttp.newResponse) = "".
Proof. repeat split. Qed.

(* ===================================================================== *)
(** ** Further properties of the check providers *)
(* ===================================================================== *)

Section MarkerFileMore.
Import GoOs GoTime.
Variable w : World.
Variable path : string.

(** The two failure texts that are built by concatenation never read
    "present". *)
Lemma stat_error_not_present (e : string) : "stat error: " ++ e <> "present".
Proof. intros Heq. vm_compute in Heq. discriminate Heq. Qed.

Lemma too_old_not_present (a b : string) :
  "health file too old: " ++ a ++ " > " ++ b <> "present".
Proof. intros Heq. vm_compute in Heq. discriminate Heq. Qed.

Lemma stat_error_nonempty (e : string) : "stat error: " ++ e <> "".
Proof. intros Heq. vm_compute in Heq. discriminate Heq. Qed.

Lemma too_old_nonempty (a b : string) :
  "health file too old: " ++ a ++ " > " ++ b <> "".
Proof. intros Heq. vm_compute in Heq. discriminate Heq. Qed.

Lemma Sub_nonpos (t u : Time) : t <= u -> Sub t u <= 0.
Proof.
  intros Hle. unfold Sub, minDuration, maxDuration.
  destruct (Z.ltb_spec (t - u) (- 2 ^ 63)); [lia|].
  destruct (Z.ltb_spec (2 ^ 63 - 1) (t - u)); lia.
Qed.

(** When the marker-file check passes. *)
Lemma checkHealthFile_passes_iff (maxAge : Duration) :
  fst (checkHealthFile w path maxAge) = true <->
  exists fi, stat w path = StatOk fi /\ IsDir fi = false /\
             (maxAge <= 0 \/ Sub (now w) (ModTime fi) <= maxAge).
Proof.
  unfold checkHealthFile. split.
  - destruct (stat w path) as [fi | err].
    + destruct (IsDir fi) eqn:Hdir; [discriminate|].
      destruct (Z.gtb_spec maxAge 0) as [Hpos | Hnp].
      * destruct (Z.gtb_spec (Sub (now w) (ModTime fi)) maxAge); [discriminate|].
        intros _. exists fi. auto.
      * intros _. exists fi. auto.
    + destruct (IsNotExist err); discriminate.
  - intros (fi & -> & -> & Hage).
    destruct (Z.gtb_spec maxAge 0) as [Hpos | Hnp]; [|reflexivity].
    destruct (Z.gtb_spec (Sub (now w) (ModTime fi)) maxAge); [lia | reflexivity].
Qed.

(** X1.  The marker-file check passes exactly when the path is a regular
    file (not a stat error, not a directory) and either the maximum age is
    not positive or the measured age does not exceed it. *)
Theorem checkHealthFile_ok_iff (maxAge : Duration) :
  fst (checkHealthFile w path maxAge) = true <->
  exists fi, stat w path = StatOk fi /\ IsDir fi = false /\
             (maxAge <= 0 \/ Sub (now w) (ModTime fi) <= maxAge).
Proof. apply checkHealthFile_passes_iff. Qed.

Lemma checkHealthFile_message_nonempty (maxAge : Duration) :
  snd (checkHealthFile w path maxAge) <> "".
Proof.
  unfold checkHealthFile.
  destruct (stat w path) as [fi | err].
  - destruct (IsDir fi); [discriminate|].
    destruct (maxAge >? 0); [|discriminate].
    destruct (Sub (now w) (ModTime fi) >? maxAge);
      [apply too_old_nonempty | discriminate].
  - destruct (IsNotExist err); [discriminate | apply stat_error_nonempty].
Qed.

(** X2.  The message tells the outcome: the check passes exactly when its
    message is "present", and the message is never empty. *)
Theorem checkHealthFile_message (maxAge : Duration) :
  (fst (checkHealthFile w path maxAge) = true <->
   snd (checkHealthFile w path maxAge) = "present") /\
  snd (checkHealthFile w path maxAge) <> "".
Proof.
  unfold checkHealthFile.
  destruct (stat w path) as [fi | err].
  - destruct (IsDir fi); [split; [split|]; discriminate|].
    destruct (maxAge >? 0); [|split; [tauto | discriminate]].
    destruct (Sub (now w) (ModTime fi) >? maxAge); cbn [fst snd].
    + split; [split; [discriminate|] | apply too_old_nonempty].
      intros Heq. now apply too_old_not_present in Heq.
    + split; [tauto | discriminate].
  - destruct (IsNotExist err); cbn [fst snd].
    + split; [split|]; discriminate.
    + split; [split; [discriminate|] | apply stat_error_nonempty].
      intros Heq. now apply stat_error_not_present in Heq.
Qed.

(** X3.  A regular file whose modification time is not in the past passes
    under every maximum age: a marker stamped in the future is healthy. *)
Theorem checkHealthFile_future_mtime (fi : FileInfo) (maxAge : Duration) :
  stat w path = StatOk fi -> IsDir fi = false -> now w <= ModTime fi ->
  checkHealthFile w path maxAge = (true, "present").
Proof.
  intros Hst Hdir Hfut.
  pose proof (Sub_nonpos _ _ Hfut) as Hage.
  destruct (Z.le_gt_cases maxAge 0).
  - now apply (checkHealthFile_no_age_check w path maxAge fi).
  - apply (checkHealthFile_fresh w path maxAge fi); [assumption | assumption | lia].
Qed.

(** X4.  Among positive maximum ages the check is monotone: a marker that
    passes under one maximum age passes under every larger one. *)
Theorem checkHealthFile_monotone (m1 m2 : Duration) :
  0 < m1 -> m1 <= m2 ->
  fst (checkHealthFile w path m1) = true ->
  fst (checkHealthFile w path m2) = true.
Proof.
  intros Hpos Hle Hok.
  apply checkHealthFile_passes_iff in Hok as (fi & Hst & Hdir & Hage).
  unfold checkHealthFile. rewrite Hst, Hdir.
  destruct (Z.gtb_spec m2 0); [|reflexivity].
  destruct (Z.gtb_spec (Sub (now w) (ModTime fi)) m2); [lia | reflexivity].
Qed.

(** X5.  The threshold is exclusive: an age equal to the maximum age
    passes, one nanosecond more fails. *)
Theorem checkHealthFile_boundary (fi : FileInfo) (maxAge : Duration) :
  stat w path = StatOk fi -> IsDir fi = false ->
  0 < maxAge < maxDuration ->
  (now w - ModTime fi = maxAge -> fst (checkHealthFile w path maxAge) = true) /\
  (now w - ModTime fi = maxAge + 1 -> fst (checkHealthFile w path maxAge) = false).
Proof.
  intros Hst Hdir [Hpos Hmax]. unfold maxDuration in Hmax. split; intros Hage.
  - rewrite (checkHealthFile_fresh w path maxAge fi); try assumption; [reflexivity|].
    rewrite GoFacts.Sub_exact; [lia|].
    unfold in_int64, minDuration, maxDuration. lia.
  - rewrite (checkHealthFile_stale w path maxAge fi); try assumption; [reflexivity|].
    rewrite GoFacts.Sub_exact; [lia|].
    unfold in_int64, minDuration, maxDuration. lia.
Qed.

(** X6.  In the "too old" message the age is printed as a whole number of
    seconds at most half a second from the measured age, for every age that
    leaves room for rounding up. *)
Theorem checkHealthFile_age_whole_seconds (fi : FileInfo) (maxAge : Duration) :
  stat w path = StatOk fi -> IsDir fi = false ->
  0 < maxAge -> maxAge < Sub (now w) (ModTime fi) ->
  Sub (now w) (ModTime fi) <= maxDuration - Second ->
  exists k : Z,
    snd (checkHealthFile w path maxAge) =
      "health file too old: " ++ String_ (k * Second) ++ " > " ++ String_ maxAge /\
    - Second <= 2 * (k * Second - Sub (now w) (ModTime fi)) <= Second.
Proof.
  intros Hst Hdir Hpos Hold Hroom.
  rewrite (checkHealthFile_stale w path maxAge fi Hst Hdir Hpos Hold). cbn [snd].
  set (age := Sub (now w) (ModTime fi)) in *.
  destruct (GoFacts.Round_Second age ltac:(lia)) as [Hmod Hnear].
  exists (Round age Second / Second).
  assert (HS : 0 < Second) by reflexivity.
  assert (Hk : Round age Second / Second * Second = Round age Second).
  { pose proof (Z.div_mod (Round age Second) Second ltac:(lia)). lia. }
  rewrite Hk. split; [reflexivity | lia].
Qed.

End MarkerFileMore.

(** X3 at a concrete input: the marker is stamped one hour ahead of the
    clock and the maximum age is one nanosecond. *)
Lemma checkHealthFile_future_mtime_witness :
  checkHealthFile (worldOf (regularFile GoTime.Hour) 0 RunNil false)
                  "/tmp/newt-healthy" 1 = (true, "present").
Proof.
  apply (checkHealthFile_future_mtime _ _
           {| GoOs.IsDir := false; GoOs.ModTime := GoTime.Hour |});
    [reflexivity | reflexivity | vm_compute; discriminate].
Defined.

(** X4 at a concrete input: a marker 90s old passes under 2m, hence under 5m. *)
Lemma checkHealthFile_monotone_witness :
  fst (checkHealthFile (worldOf (regularFile 0) (90 * GoTime.Second) RunNil false)
                       "/tmp/newt-healthy" (5 * GoTime.Minute)) = true.
Proof.
  apply (checkHealthFile_monotone _ _ (2 * GoTime.Minute) (5 * GoTime.Minute));
    [reflexivity | vm_compute; discriminate | reflexivity].
Defined.

(** X5 at a concrete input: maximum age 2m, marker exactly 2m old, and
    marker 2m and one nanosecond old. *)
Lemma checkHealthFile_boundary_witness :
  fst (checkHealthFile (worldOf (regularFile 0) (2 * GoTime.Minute) RunNil false)
                       "/tmp/newt-healthy" (2 * GoTime.Minute)) = true /\
  fst (checkHealthFile (worldOf (regularFile 0) (2 * GoTime.Minute + 1) RunNil false)
                       "/tmp/newt-healthy" (2 * GoTime.Minute)) = false.
Proof.
  split.
  - apply (proj1 (checkHealthFile_boundary
                    (worldOf (regularFile 0) (2 * GoTime.Minute) RunNil false)
                    "/tmp/newt-healthy"
                    {| GoOs.IsDir := false; GoOs.ModTime := 0 |} (2 * GoTime.Minute)
                    eq_refl eq_refl (conj eq_refl eq_refl))).
    reflexivity.
  - apply (proj2 (checkHealthFile_boundary
                    (worldOf (regularFile 0) (2 * GoTime.Minute + 1) RunNil false)
                    "/tmp/newt-healthy"
                    {| GoOs.IsDir := false; GoOs.ModTime := 0 |} (2 * GoTime.Minute)
                    eq_refl eq_refl (conj eq_refl eq_refl))).
    reflexivity.
Defined.

(** X6 at a concrete input: an age of 150.6s is printed as 2m31s. *)
Lemma checkHealthFile_age_whole_seconds_witness :
  exists k : Z,
    snd (checkHealthFile
           (worldOf (regularFile 0) (150600 * GoTime.Millisecond) RunNil false)
           "/tmp/newt-healthy" (2 * GoTime.Minute)) =
      "health file too old: " ++ GoTime.String_ (k * GoTime.Second) ++ " > "
        ++ GoTime.String_ (2 * GoTime.Minute) /\
    - GoTime.Second
      <= 2 * (k * GoTime.Second
              - GoTime.Sub (now (worldOf (regularFile 0)
                                   (150600 * GoTime.Millisecond) RunNil false))
                           0)
      <= GoTime.Second.
Proof.
  apply (checkHealthFile_age_whole_seconds
           (worldOf (regularFile 0) (150600 * GoTime.Millisecond) RunNil false)
           "/tmp/newt-healthy" {| GoOs.IsDir := false; GoOs.ModTime := 0 |}
           (2 * GoTime.Minute));
    [reflexivity | reflexivity | reflexivity | reflexivity | vm_compute; discriminate].
Defined.

Example too_old_message_rounds_age :
  checkHealthFile (worldOf (regularFile 0) (150600 * GoTime.Millisecond) RunNil false)
                  "/tmp/newt-healthy" (2 * GoTime.Minute)
  = (false, "health file too old: 2m31s > 2m0s").
Proof. vm_compute. reflexivity. Qed.

Lemma checkSystemd_message_nonempty (w : World) (unit : string)
      (timeout : GoTime.Duration) :
  snd (checkSystemd w unit timeout) <> "".
Proof.
  unfold checkSystemd.
  destruct (run w unit timeout); destruct (deadlineExceeded w unit timeout);
    discriminate.
Qed.

(** X7.  The service-state check passes exactly when [cmd.Run] returned
    nil, whatever the deadline; it passes exactly when its message is
    "active"; and it has three possible messages, none of them empty. *)
Theorem checkSystemd_ok_iff (w : World) (unit : string) (timeout : GoTime.Duration) :
  (fst (checkSystemd w unit timeout) = true <-> run w unit timeout = RunNil) /\
  (fst (checkSystemd w unit timeout) = true <->
   snd (checkSystemd w unit timeout) = "active") /\
  (snd (checkSystemd w unit timeout) = "active"
   \/ snd (checkSystemd w unit timeout) = "systemctl timeout"
   \/ snd (checkSystemd w unit timeout) = "not active") /\
  snd (checkSystemd w unit timeout) <> "".
Proof.
  unfold checkSystemd.
  destruct (run w unit timeout); destruct (deadlineExceeded w unit timeout);
    cbn [fst snd];
    (split; [split; (discriminate || reflexivity || congruence)|]);
    (split; [split; (discriminate || reflexivity || congruence)|]);
    (split; [tauto | discriminate]).
Qed.

(* ===================================================================== *)
(** ** Further properties of the aggregator and the /healthz response *)
(* ===================================================================== *)

Section AggregatorMore.
Variable cfg : Config.
Variable w : World.

(** X8.  The marker-file entry is in the checks map of every poll, and
    with the service-state check enabled so is the "systemd" entry, also
    when the marker-file check has already failed: the map then has exactly
    these two keys. *)
Theorem healthzResult_entries :
  Checks (healthzResult cfg w) !! "newt_health_file" = Some (fileDetail cfg w) /\
  (enableSystemd cfg = true ->
   Checks (healthzResult cfg w) !! "systemd" = Some (systemdDetail cfg w) /\
   dom (Checks (healthzResult cfg w)) = {[ "newt_health_file"; "systemd" ]}) /\
  (enableSystemd cfg = false ->
   dom (Checks (healthzResult cfg w)) = {[ "newt_health_file" ]}).
Proof.
  destruct (enableSystemd cfg) eqn:Hsys.
  - rewrite healthzResult_enabled by assumption. cbn [Checks].
    split; [|split; [intros _; split | discriminate]].
    + rewrite lookup_insert_ne by discriminate. apply lookup_singleton_eq.
    + apply lookup_insert_eq.
    + rewrite dom_insert_L, dom_singleton_L. set_solver.
  - rewrite healthzResult_disabled by assumption. cbn [Checks].
    split; [apply lookup_singleton_eq|]. split; [discriminate|].
    intros _. apply dom_singleton_L.
Qed.

(** X9.  No entry of the checks map has an empty message. *)
Theorem healthzResult_messages_nonempty :
  map_Forall (fun (_ : string) d => Message d <> "") (Checks (healthzResult cfg w)).
Proof.
  pose proof (checkHealthFile_message_nonempty w (healthFile cfg) (maxAge cfg)) as Hf.
  pose proof (checkSystemd_message_nonempty w (systemdUnit cfg) (systemdTimeout cfg))
    as Hs.
  destruct (enableSystemd cfg) eqn:Hsys.
  - rewrite healthzResult_enabled by assumption. cbn [Checks].
    rewrite map_Forall_insert by (apply lookup_singleton_ne; discriminate).
    rewrite map_Forall_singleton. split; assumption.
  - rewrite healthzResult_disabled by assumption. cbn [Checks].
    rewrite map_Forall_singleton. assumption.
Qed.

(** X10.  A failing marker-file check makes the response 503 with a false
    verdict, whether or not the service-state check is enabled and whatever
    it reports. *)
Theorem healthz_503_when_file_check_fails
        (Marshal : Result -> string) (DetectContentType : string -> string)
        (r : Request) :
  URL_Path r = "/healthz" ->
  fst (checkHealthFile w (healthFile cfg) (maxAge cfg)) = false ->
  OK (healthzResult cfg w) = false /\
  GoHttp.StatusCode (serve Marshal DetectContentType cfg w r) = 503.
Proof.
  intros Hpath Hfail.
  assert (Hok : OK (healthzResult cfg w) = false).
  { rewrite healthzResult_OK. unfold fileDetail. cbn [CheckOK].
    rewrite Hfail. reflexivity. }
  split; [exact Hok|].
  rewrite serve_healthz by assumption. cbn [GoHttp.StatusCode].
  rewrite Hok. reflexivity.
Qed.

End AggregatorMore.

(** X10 at a concrete input: the marker is missing, the service-state
    check is enabled and the unit is active. *)
Lemma healthz_503_when_file_check_fails_witness :
  OK (healthzResult
        {| listenAddr := ":8443"; healthFile := "/tmp/newt-healthy";
           maxAge := 2 * GoTime.Minute; certFile := ""; keyFile := "";
           enableSystemd := true; systemdUnit := "newt";
           systemdTimeout := GoTime.Second |}
        (worldOf missing 0 RunNil false)) = false /\
  GoHttp.StatusCode
    (serve (fun _ => "{}") (fun _ => "text/plain; charset=utf-8")
       {| listenAddr := ":8443"; healthFile := "/tmp/newt-healthy";
          maxAge := 2 * GoTime.Minute; certFile := ""; keyFile := "";
          enableSystemd := true; systemdUnit := "newt";
          systemdTimeout := GoTime.Second |}
       (worldOf missing 0 RunNil false) getHealthz) = 503.
Proof.
  apply healthz_503_when_file_check_fails; reflexivity.
Defined.

(** X11.  Enabling the service-state check can only lower the verdict: if
    the poll is healthy with the check enabled, it is healthy under the same
    configuration with the check disabled. *)
Theorem enabling_systemd_never_improves (cfg1 cfg2 : Config) (w : World) :
  healthFile cfg1 = healthFile cfg2 -> maxAge cfg1 = maxAge cfg2 ->
  enableSystemd cfg1 = false ->
  OK (healthzResult cfg2 w) = true ->
  OK (healthzResult cfg1 w) = true.
Proof.
  intros Hfile Hage Hoff Hok.
  rewrite healthzResult_OK in *. rewrite Hoff.
  unfold fileDetail in *. cbn [CheckOK] in *. rewrite Hfile, Hage.
  apply andb_true_iff in Hok as [Hf _]. now rewrite Hf.
Qed.

Lemma enabling_systemd_never_improves_witness :
  OK (healthzResult defaultConfig
        (worldOf (regularFile 0) GoTime.Minute RunNil false)) = true.
Proof.
  apply (enabling_systemd_never_improves defaultConfig
           {| listenAddr := ":8443"; healthFile := "/tmp/newt-healthy";
              maxAge := 2 * GoTime.Minute; certFile := ""; keyFile := "";
              enableSystemd := true; systemdUnit := "newt";
              systemdTimeout := GoTime.Second |});
    reflexivity.
Defined.

(* ===================================================================== *)
(** ** Further properties of the configuration *)
(* ===================================================================== *)

Section ConfigurationMore.
Import GoOs GoTime.
Variable ParseDuration : string -> option Duration.
Variables ToLower TrimSpace : string -> string.

Lemma getenv_nonempty env k d : d <> "" -> getenv env k d <> "".
Proof.
  intros Hd. unfold getenv.
  destruct (String.eqb_spec (Getenv env k) ""); cbn [negb]; assumption.
Qed.

(** X12.  Whatever the environment, the listen address, the marker path
    and the unit name of the configuration are never empty: a variable set
    to the empty string counts as unset. *)
Theorem loadConfig_strings_nonempty (env : Environ) :
  listenAddr (loadConfig ParseDuration ToLower TrimSpace env) <> "" /\
  healthFile (loadConfig ParseDuration ToLower TrimSpace env) <> "" /\
  systemdUnit (loadConfig ParseDuration ToLower TrimSpace env) <> "".
Proof.
  cbn [loadConfig listenAddr healthFile systemdUnit].
  repeat split; apply getenv_nonempty; discriminate.
Qed.

(** X13.  MAX_AGE is taken as parsed, without a range check: a value that
    parses to zero or to a negative duration turns the age check off, so
    every regular file passes whatever its modification time. *)
Theorem nonpositive_MAX_AGE_disables_age_check
        (env : Environ) (d : Duration) (w : World) (fi : FileInfo) :
  Getenv env "MAX_AGE" <> "" ->
  ParseDuration (Getenv env "MAX_AGE") = Some d -> d <= 0 ->
  stat w (healthFile (loadConfig ParseDuration ToLower TrimSpace env)) = StatOk fi ->
  IsDir fi = false ->
  maxAge (loadConfig ParseDuration ToLower TrimSpace env) = d /\
  checkHealthFile w (healthFile (loadConfig ParseDuration ToLower TrimSpace env))
                  (maxAge (loadConfig ParseDuration ToLower TrimSpace env))
    = (true, "present").
Proof.
  intros Hset Hparse Hle Hst Hdir.
  assert (Hage : maxAge (loadConfig ParseDuration ToLower TrimSpace env) = d).
  { cbn [loadConfig maxAge]. now apply parseDurationEnv_parsed. }
  split; [exact Hage|].
  apply (checkHealthFile_no_age_check _ _ _ fi); [assumption | assumption | lia].
Qed.

End ConfigurationMore.

(** X14.  A value of a boolean setting that is not empty after lowering
    and trimming enables the setting exactly when it reads "1", "true",
    "yes" or "on"; any other text gives false, whatever the default. *)
Theorem parseBoolEnv_nonempty (ToLower TrimSpace : string -> string)
        (env : GoOs.Environ) (k : string) (d : bool) :
  TrimSpace (ToLower (GoOs.Getenv env k)) <> "" ->
  (parseBoolEnv ToLower TrimSpace env k d = true <->
   In (TrimSpace (ToLower (GoOs.Getenv env k))) ["1"; "true"; "yes"; "on"]) /\
  parseBoolEnv ToLower TrimSpace env k d = parseBoolEnv ToLower TrimSpace env k (negb d).
Proof.
  intros Hne. unfold parseBoolEnv.
  set (v := TrimSpace (ToLower (GoOs.Getenv env k))) in *.
  destruct (String.eqb_spec v ""); [contradiction|].
  split; [|reflexivity].
  rewrite !orb_true_iff. cbn [In].
  rewrite !String.eqb_eq. intuition congruence.
Qed.

(** X13 at a concrete input: MAX_AGE=-5ms, a marker last touched an hour ago. *)
Lemma nonpositive_MAX_AGE_disables_age_check_witness :
  maxAge (loadConfig GoTime.ParseDuration_whole GoStrings.ToLower_ascii
            GoStrings.TrimSpace_ascii [("MAX_AGE", "-5ms")])
    = -5 * GoTime.Millisecond /\
  checkHealthFile (worldOf (regularFile 0) GoTime.Hour RunNil false)
    (healthFile (loadConfig GoTime.ParseDuration_whole GoStrings.ToLower_ascii
                   GoStrings.TrimSpace_ascii [("MAX_AGE", "-5ms")]))
    (maxAge (loadConfig GoTime.ParseDuration_whole GoStrings.ToLower_ascii
               GoStrings.TrimSpace_ascii [("MAX_AGE", "-5ms")]))
    = (true, "present").
Proof.
  apply (nonpositive_MAX_AGE_disables_age_check
           GoTime.ParseDuration_whole GoStrings.ToLower_ascii
           GoStrings.TrimSpace_ascii [("MAX_AGE", "-5ms")] (-5 * GoTime.Millisecond)
           (worldOf (regularFile 0) GoTime.Hour RunNil false)
           {| GoOs.IsDir := false; GoOs.ModTime := 0 |});
    [discriminate | reflexivity | vm_compute; discriminate | reflexivity | reflexivity].
Defined.

(** X14 at a concrete input: CHECK_SYSTEMD=" Enabled " with default true. *)
Lemma parseBoolEnv_nonempty_witness :
  (parseBoolEnv GoStrings.ToLower_ascii GoStrings.TrimSpace_ascii
                [("CHECK_SYSTEMD", " Enabled ")] "CHECK_SYSTEMD" true = true <->
   In (GoStrings.TrimSpace_ascii
         (GoStrings.ToLower_ascii
            (GoOs.Getenv [("CHECK_SYSTEMD", " Enabled ")] "CHECK_SYSTEMD")))
      ["1"; "true"; "yes"; "on"]) /\
  parseBoolEnv GoStrings.ToLower_ascii GoStrings.TrimSpace_ascii
               [("CHECK_SYSTEMD", " Enabled ")] "CHECK_SYSTEMD" true
  = parseBoolEnv GoStrings.ToLower_ascii GoStrings.TrimSpace_ascii
                 [("CHECK_SYSTEMD", " Enabled ")] "CHECK_SYSTEMD" (negb true).
Proof.
  apply (parseBoolEnv_nonempty GoStrings.ToLower_ascii GoStrings.TrimSpace_ascii
           [("CHECK_SYSTEMD", " Enabled ")] "CHECK_SYSTEMD" true).
  vm_compute. discriminate.
Defined.

Example parseBoolEnv_examples :
  map (fun v => parseBoolEnv GoStrings.ToLower_ascii GoStrings.TrimSpace_ascii
                             [("CHECK_SYSTEMD", v)] "CHECK_SYSTEMD" true)
      ["1"; " TRUE "; "Yes"; "on"; "0"; "false"; " Enabled "; "t"; ""; "   "]
  = [true; true; true; true; false; false; false; false; true; true].
Proof. vm_compute. reflexivity. Qed.

(* ===================================================================== *)
(** ** [init]: PORT and LISTEN_ADDR *)
(* ===================================================================== *)

Section InitFacts.
Import GoOs GoEnv.
Variable ParseDuration : string -> option GoTime.Duration.
Variables ToLower TrimSpace : string -> string.
Variable Atoi : string -> option Z.

Lemma Getenv_Setenv_other env key value k :
  k <> key -> Getenv (Setenv env key value) k = Getenv env k.
Proof.
  intros Hne. unfold Setenv.
  destruct (_ || _); [reflexivity|]. cbn [Getenv].
  destruct (String.eqb_spec key k); [congruence | reflexivity].
Qed.

Lemma Setenv_LISTEN_ADDR env p :
  hasByte p NUL = false ->
  Setenv env "LISTEN_ADDR" (JoinHostPort "" p) = ("LISTEN_ADDR", ":" ++ p) :: env.
Proof.
  intros Hnul. unfold Setenv, JoinHostPort.
  change (hasByte "" ":") with false. cbv iota.
  change ("" ++ ":" ++ p) with (String ":" p).
  change (hasByte (String ":" p) NUL) with (hasByte p NUL). rewrite Hnul.
  reflexivity.
Qed.

(** [init] touches no variable other than LISTEN_ADDR. *)
Lemma Getenv_init env k :
  k <> "LISTEN_ADDR" -> Getenv (init Atoi env) k = Getenv env k.
Proof.
  intros Hne. unfold init.
  destruct (_ && _); [|reflexivity].
  destruct (Atoi _); [|reflexivity].
  now apply Getenv_Setenv_other.
Qed.

(** X15.  A LISTEN_ADDR that is set wins over PORT: [init] leaves the
    environment as it is and the server listens on LISTEN_ADDR. *)
Theorem LISTEN_ADDR_wins (env : Environ) :
  Getenv env "LISTEN_ADDR" <> "" ->
  init Atoi env = env /\
  listenAddr (processConfig ParseDuration ToLower TrimSpace Atoi env)
    = Getenv env "LISTEN_ADDR".
Proof.
  intros Hset.
  assert (Hinit : init Atoi env = env).
  { unfold init. destruct (String.eqb_spec (Getenv env "LISTEN_ADDR") "");
      [contradiction|]. now rewrite andb_false_r. }
  split; [exact Hinit|].
  unfold processConfig. rewrite Hinit. cbn [loadConfig listenAddr].
  now apply getenv_set.
Qed.

(** X16.  With LISTEN_ADDR unset and PORT an integer, the server listens on
    ":PORT", the text of PORT taken as it is (no range check, sign kept). *)
Theorem PORT_sets_listen_address (env : Environ) (n : Z) :
  Getenv env "LISTEN_ADDR" = "" ->
  Getenv env "PORT" <> "" ->
  Atoi (Getenv env "PORT") = Some n ->
  hasByte (Getenv env "PORT") NUL = false ->
  listenAddr (processConfig ParseDuration ToLower TrimSpace Atoi env)
    = ":" ++ Getenv env "PORT".
Proof.
  intros Hunset Hport Hint Hnul.
  unfold processConfig, init. rewrite Hunset, Hint.
  destruct (String.eqb_spec (Getenv env "PORT") ""); [contradiction|].
  cbn [negb andb String.eqb].
  rewrite Setenv_LISTEN_ADDR by assumption.
  cbn [loadConfig listenAddr]. apply getenv_set.
  cbn [Getenv]. rewrite String.eqb_refl. discriminate.
Qed.

(** X17.  With LISTEN_ADDR unset and PORT unset or not an integer, PORT is
    ignored without a message and the server listens on ":8443". *)
Theorem bad_PORT_ignored (env : Environ) :
  Getenv env "LISTEN_ADDR" = "" ->
  Getenv env "PORT" = "" \/ Atoi (Getenv env "PORT") = None ->
  init Atoi env = env /\
  listenAddr (processConfig ParseDuration ToLower TrimSpace Atoi env) = ":8443".
Proof.
  intros Hunset Hbad.
  assert (Hinit : init Atoi env = env).
  { unfold init. destruct Hbad as [-> | ->]; [reflexivity|].
    destruct (_ && _); reflexivity. }
  split; [exact Hinit|].
  unfold processConfig. rewrite Hinit. cbn [loadConfig listenAddr].
  now apply getenv_unset.
Qed.

(** X18.  [init] changes nothing but the listen address: every other field
    of the configuration is the one read from the environment as given. *)
Theorem init_keeps_other_settings (env : Environ) :
  let c := processConfig ParseDuration ToLower TrimSpace Atoi env in
  let c0 := loadConfig ParseDuration ToLower TrimSpace env in
  healthFile c = healthFile c0 /\ maxAge c = maxAge c0 /\
  certFile c = certFile c0 /\ keyFile c = keyFile c0 /\
  enableSystemd c = enableSystemd c0 /\ systemdUnit c = systemdUnit c0 /\
  systemdTimeout c = systemdTimeout c0.
Proof.
  intros c c0. subst c c0. unfold processConfig.
  cbn [loadConfig healthFile maxAge certFile keyFile enableSystemd systemdUnit
       systemdTimeout].
  unfold getenv, parseDurationEnv, parseBoolEnv.
  rewrite !Getenv_init by discriminate.
  repeat split.
Qed.

End InitFacts.

(** X15 at a concrete input: LISTEN_ADDR=:9000 and PORT=8080. *)
Lemma LISTEN_ADDR_wins_witness :
  init GoStrconv.Atoi [("PORT", "8080"); ("LISTEN_ADDR", ":9000")]
    = [("PORT", "8080"); ("LISTEN_ADDR", ":9000")] /\
  listenAddr (processConfig GoTime.ParseDuration_whole GoStrings.ToLower_ascii
                GoStrings.TrimSpace_ascii GoStrconv.Atoi
                [("PORT", "8080"); ("LISTEN_ADDR", ":9000")])
    = GoOs.Getenv [("PORT", "8080"); ("LISTEN_ADDR", ":9000")] "LISTEN_ADDR".
Proof.
  apply (LISTEN_ADDR_wins GoTime.ParseDuration_whole GoStrings.ToLower_ascii
           GoStrings.TrimSpace_ascii GoStrconv.Atoi).
  discriminate.
Defined.

(** X16 at a concrete input: PORT=8080 alone. *)
Lemma PORT_sets_listen_address_witness :
  listenAddr (processConfig GoTime.ParseDuration_whole GoStrings.ToLower_ascii
                GoStrings.TrimSpace_ascii GoStrconv.Atoi [("PORT", "8080")])
    = ":" ++ GoOs.Getenv [("PORT", "8080")] "PORT".
Proof.
  apply (PORT_sets_listen_address GoTime.ParseDuration_whole GoStrings.ToLower_ascii
           GoStrings.TrimSpace_ascii GoStrconv.Atoi [("PORT", "8080")] 8080);
    [reflexivity | discriminate | reflexivity | reflexivity].
Defined.

(** X17 at a concrete input: PORT=http. *)
Lemma bad_PORT_ignored_witness :
  init GoStrconv.Atoi [("PORT", "http")] = [("PORT", "http")] /\
  listenAddr (processConfig GoTime.ParseDuration_whole GoStrings.ToLower_ascii
                GoStrings.TrimSpace_ascii GoStrconv.Atoi [("PORT", "http")])
    = ":8443".
Proof.
  apply (bad_PORT_ignored GoTime.ParseDuration_whole GoStrings.ToLower_ascii
           GoStrings.TrimSpace_ascii GoStrconv.Atoi [("PORT", "http")]);
    [reflexivity | right; reflexivity].
Defined.

Example processConfig_listenAddr_examples :
  map (fun env => listenAddr (processConfig GoTime.ParseDuration_whole
                     GoStrings.ToLower_ascii GoStrings.TrimSpace_ascii
                     GoStrconv.Atoi env))
      [[]; [("PORT", "8080")]; [("PORT", "-1")]; [("PORT", "99999999")];
       [("PORT", "80 ")]; [("PORT", "8080"); ("LISTEN_ADDR", "127.0.0.1:9000")];
       [("LISTEN_ADDR", ""); ("PORT", "8080")]]
  = [":8443"; ":8080"; ":-1"; ":99999999"; ":8443"; "127.0.0.1:9000"; ":8080"].
Proof. vm_compute. reflexivity. Qed.

(* ===================================================================== *)
(** ** Start-up: listener and protocol *)
(* ===================================================================== *)

Section StartupFacts.
Variable listen : string -> option string.
Variable stat_ : string -> GoOs.StatResult.
Variable cfg : Config.

(** X19.  The server goes on to serve HTTPS exactly when the listener was
    bound, both the certificate path and the key path are configured, and
    [os.Stat] succeeds on both: under these conditions it serves TLS on the
    configured address with these two files, and under no others does it
    serve TLS at all. *)
Theorem startup_TLS_iff :
  (listen (listenAddr cfg) = None /\
   certFile cfg <> "" /\ keyFile cfg <> "" /\
   errorOf (stat_ (certFile cfg)) = None /\
   errorOf (stat_ (keyFile cfg)) = None ->
   snd (startup listen stat_ cfg)
     = ServeTLS (listenAddr cfg) (certFile cfg) (keyFile cfg)) /\
  (forall addr cert key,
     snd (startup listen stat_ cfg) = ServeTLS addr cert key ->
     listen (listenAddr cfg) = None /\
     certFile cfg <> "" /\ keyFile cfg <> "" /\
     errorOf (stat_ (certFile cfg)) = None /\
     errorOf (stat_ (keyFile cfg)) = None /\
     addr = listenAddr cfg /\ cert = certFile cfg /\ key = keyFile cfg).
Proof.
  unfold startup. split.
  - intros (-> & Hc & Hk & -> & ->).
    destruct (String.eqb_spec (certFile cfg) ""); [contradiction|].
    destruct (String.eqb_spec (keyFile cfg) ""); [contradiction|].
    reflexivity.
  - intros addr cert key Hrun.
    destruct (listen (listenAddr cfg)); [discriminate Hrun|].
    destruct (String.eqb_spec (certFile cfg) ""); [discriminate Hrun|].
    destruct (String.eqb_spec (keyFile cfg) ""); [discriminate Hrun|].
    cbn [negb andb] in Hrun.
    destruct (errorOf (stat_ (certFile cfg))); [discriminate Hrun|].
    destruct (errorOf (stat_ (keyFile cfg))); [discriminate Hrun|].
    cbn [snd] in Hrun. injection Hrun as <- <- <-.
    repeat split; assumption.
Qed.

(** X20.  When the listener is bound and only one of TLS_CERT_FILE and
    TLS_KEY_FILE is configured (or neither), the server serves plain HTTP:
    the half-configured TLS is dropped without an error, and no file is
    inspected. *)
Theorem startup_plain_HTTP :
  listen (listenAddr cfg) = None ->
  certFile cfg = "" \/ keyFile cfg = "" ->
  snd (startup listen stat_ cfg) = Serve (listenAddr cfg).
Proof.
  intros Hbound Hhalf. unfold startup. rewrite Hbound.
  destruct Hhalf as [-> | ->]; [reflexivity|].
  now rewrite andb_false_r.
Qed.

(** X21.  Start-up failures in order: a listener that cannot be bound is
    fatal with "listen failed: ..." before anything is logged and before
    any TLS file is looked at; with the listener bound and both paths
    configured, a certificate that cannot be inspected is fatal with
    "cert file invalid: ..." whatever the state of the key. *)
Theorem startup_failures :
  (forall err, listen (listenAddr cfg) = Some err ->
     startup listen stat_ cfg = ([], FatalExit ("listen failed: " ++ err))) /\
  (forall err, listen (listenAddr cfg) = None ->
     certFile cfg <> "" -> keyFile cfg <> "" ->
     errorOf (stat_ (certFile cfg)) = Some err ->
     snd (startup listen stat_ cfg) = FatalExit ("cert file invalid: " ++ err)) /\
  (forall err, listen (listenAddr cfg) = None ->
     certFile cfg <> "" -> keyFile cfg <> "" ->
     errorOf (stat_ (certFile cfg)) = None ->
     errorOf (stat_ (keyFile cfg)) = Some err ->
     snd (startup listen stat_ cfg) = FatalExit ("key file invalid: " ++ err)).
Proof.
  unfold startup. split; [|split].
  - intros err ->. reflexivity.
  - intros err -> Hc Hk ->.
    destruct (String.eqb_spec (certFile cfg) ""); [contradiction|].
    destruct (String.eqb_spec (keyFile cfg) ""); [contradiction|].
    reflexivity.
  - intros err -> Hc Hk -> ->.
    destruct (String.eqb_spec (certFile cfg) ""); [contradiction|].
    destruct (String.eqb_spec (keyFile cfg) ""); [contradiction|].
    reflexivity.
Qed.

End StartupFacts.

(** Hosts and configurations for the start-up examples. *)
Definition tlsConfig (cert key : string) : Config :=
  {| listenAddr := ":8443"; healthFile := "/tmp/newt-healthy";
     maxAge := 2 * GoTime.Minute; certFile := cert; keyFile := key;
     enableSystemd := false; systemdUnit := "newt";
     systemdTimeout := GoTime.Second |}.

Definition portFree : string -> option string := fun _ => None.

Definition portTaken : string -> option string :=
  fun addr => Some ("listen tcp " ++ addr ++ ": bind: address already in use").

Definition noFiles : string -> GoOs.StatResult :=
  fun name =>
    GoOs.StatErr {| GoOs.IsNotExist := true;
                    GoOs.Error := "stat " ++ name ++ ": no such file or directory" |}.

(** X19 at a concrete input: the port is free and both files exist. *)
Lemma startup_TLS_iff_witness :
  snd (startup portFree (fun _ => regularFile 0) (tlsConfig "cert.pem" "key.pem"))
    = ServeTLS ":8443" "cert.pem" "key.pem".
Proof.
  apply (proj1 (startup_TLS_iff portFree (fun _ => regularFile 0)
                  (tlsConfig "cert.pem" "key.pem"))).
  repeat split; discriminate.
Defined.

(** X20 at a concrete input: only the certificate path is configured, and
    the file does not even exist. *)
Lemma startup_plain_HTTP_witness :
  snd (startup portFree noFiles (tlsConfig "/etc/ssl/newt-health/cert.pem" ""))
    = Serve ":8443".
Proof.
  apply (startup_plain_HTTP portFree noFiles
           (tlsConfig "/etc/ssl/newt-health/cert.pem" ""));
    [reflexivity | right; reflexivity].
Defined.

(** X21 at concrete inputs: the port is taken; the certificate and the key
    are both missing; only the key is missing. *)
Lemma startup_failures_witness :
  startup portTaken noFiles (tlsConfig "cert.pem" "key.pem")
    = ([], FatalExit "listen failed: listen tcp :8443: bind: address already in use") /\
  snd (startup portFree noFiles (tlsConfig "cert.pem" "key.pem"))
    = FatalExit "cert file invalid: stat cert.pem: no such file or directory" /\
  snd (startup portFree
         (fun name => if String.eqb name "cert.pem" then regularFile 0
                      else noFiles name)
         (tlsConfig "cert.pem" "key.pem"))
    = FatalExit "key file invalid: stat key.pem: no such file or directory".
Proof.
  split; [|split].
  - apply (proj1 (startup_failures portTaken noFiles (tlsConfig "cert.pem" "key.pem"))).
    reflexivity.
  - apply (proj1 (proj2 (startup_failures portFree noFiles
                           (tlsConfig "cert.pem" "key.pem"))));
      [reflexivity | discriminate | discriminate | reflexivity].
  - apply (proj2 (proj2 (startup_failures portFree
                           (fun name => if String.eqb name "cert.pem"
                                        then regularFile 0 else noFiles name)
                           (tlsConfig "cert.pem" "key.pem"))));
      [reflexivity | discriminate | discriminate | reflexivity | reflexivity].
Defined.

Example startup_logs_then_fails :
  startup portFree noFiles (tlsConfig "cert.pem" "key.pem")
  = (["health server listening on :8443 (health file: /tmp/newt-healthy, maxAge: 2m0s)"],
     FatalExit "cert file invalid: stat cert.pem: no such file or directory").
Proof. vm_compute. reflexivity. Qed.

(** X8 at a concrete input: the service-state check is enabled and the
    marker is missing; the "systemd" entry is there all the same. *)
Lemma healthzResult_entries_witness :
  Checks (healthzResult
            {| listenAddr := ":8443"; healthFile := "/tmp/newt-healthy";
               maxAge := 2 * GoTime.Minute; certFile := ""; keyFile := "";
               enableSystemd := true; systemdUnit := "newt";
               systemdTimeout := GoTime.Second |}
            (worldOf missing 0 RunNil false)) !! "systemd"
    = Some {| CheckOK := true; Message := "active" |} /\
  dom (Checks (healthzResult
                 {| listenAddr := ":8443"; healthFile := "/tmp/newt-healthy";
                    maxAge := 2 * GoTime.Minute; certFile := ""; keyFile := "";
                    enableSystemd := true; systemdUnit := "newt";
                    systemdTimeout := GoTime.Second |}
                 (worldOf missing 0 RunNil false)))
    = {[ "newt_health_file"; "systemd" ]}.
Proof.
  apply (proj1 (proj2 (healthzResult_entries
           {| listenAddr := ":8443"; healthFile := "/tmp/newt-healthy";
              maxAge := 2 * GoTime.Minute; certFile := ""; keyFile := "";
              enableSystemd := true; systemdUnit := "newt";
              systemdTimeout := GoTime.Second |}
           (worldOf missing 0 RunNil false)))).
  reflexivity.
Defined.
